(** * Validation and metadata DSL of goa (package dsl)

    Shallow embedding of [dsl/validation.go] (Enum, Format, Pattern,
    Minimum, Maximum, MinLength, MaxLength, Required) and of [Meta].

    The evaluation context of package [eval] is modelled as an explicit
    state: the definition currently open ([eval.Current()]) together with
    the errors reported so far ([eval.ReportError], [eval.IncompatibleDSL]
    append to it and never abort).  Each DSL function is a state
    transformer [EvalState -> EvalState]. *)

From Stdlib Require Import ZArith Ascii String Floats.SpecFloat.
From stdpp Require Import base list gmap strings.

Local Open Scope Z_scope.

(* ------------------------------------------------------------------ *)
(** ** Go values passed to the DSL ([interface{}]) *)

(** The integer types of Go.  A [VInteger k z] value is assumed to lie in
    the range of its type [k]. *)
Inductive GoInt :=
  | GInt | GInt8 | GInt16 | GInt32 | GInt64
  | GUint | GUint8 | GUint16 | GUint32 | GUint64 | GUintptr.

(** Dynamic values.  Floats are IEEE values as [spec_float]; a [float32]
    value is a binary32 value (precision 24), a [float64] value a
    binary64 value (precision 53).  [VMapVal] and [VArrayVal] are the DSL
    types [expr.MapVal] and [expr.ArrayVal]; [VMap] and [VSlice] are the
    plain Go [map[interface{}]interface{}] and [[]interface{}]. *)
#[warnings="-register-all"]
Inductive Value :=
  | VNil
  | VBool (b : bool)
  | VInteger (k : GoInt) (z : Z)
  | VFloat32 (f : spec_float)
  | VFloat64 (f : spec_float)
  | VString (s : string)
  | VMapVal (m : list (Value * Value))
  | VArrayVal (l : list Value)
  | VMap (m : list (Value * Value))
  | VSlice (l : list Value)
  | VStruct (typeName : string) (fields : list (string * Value)).

(* ------------------------------------------------------------------ *)
(** ** Package expr: kinds, types, validations, definitions *)

Module expr.

Inductive Kind :=
  | BooleanKind | IntKind | Int32Kind | Int64Kind | UIntKind | UInt32Kind
  | UInt64Kind | Float32Kind | Float64Kind | StringKind | BytesKind
  | ArrayKind | ObjectKind | MapKind | UserTypeKind | ResultTypeKind
  | AnyKind.

Global Instance Kind_eq_dec : EqDecision Kind.
Proof. solve_decision. Defined.

(** [expr.DataType], through the two methods the DSL calls on it. *)
Record DataType := mkDataType { Kind_of : Kind; Name : string }.

(** [expr.ValidationExpr].  [Format] and [Pattern] are Go strings whose
    zero value [""] means "not set"; [Minimum], [Maximum], [MinLength] and
    [MaxLength] are pointers, [None] being [nil]. *)
Record ValidationExpr := mkValidation {
  Values : list Value;
  Format : string;
  Pattern : string;
  Minimum : option spec_float;
  Maximum : option spec_float;
  MinLength : option Z;
  MaxLength : option Z;
  Required : list string
}.

(** The zero value [&expr.ValidationExpr{}]. *)
Definition emptyValidation : ValidationExpr :=
  mkValidation [] "" "" None None None None [].

(** [expr.MetaExpr] is [map[string][]string]; a nil map is [None]. *)
Abbreviation MetaExpr := (gmap string (list string)).

(** [expr.AttributeExpr]: the fields the DSL functions read and write.
    [AttrType] is the Go field [Type] ([nil] when not yet known). *)
Record AttributeExpr := mkAttribute {
  AttrType : option DataType;
  Validation : option ValidationExpr;
  Meta : option MetaExpr
}.

(** [expr.ResultTypeExpr] embeds its attribute: its [Meta] and
    [Validation] fields are those of [RTAttribute] (promoted fields). *)
Record ResultTypeExpr := mkResultType {
  Identifier : string;
  RTAttribute : AttributeExpr
}.

(** A value of the interface [expr.CompositeExpr]: [Attribute()] returns
    [CAttribute]. *)
Record CompositeExpr := mkComposite {
  CName : string;
  CAttribute : AttributeExpr
}.

Record MethodExpr := mkMethod { MName : string; MMeta : option MetaExpr }.
Record ServiceExpr := mkService { SName : string; SMeta : option MetaExpr }.
Record APIExpr := mkAPI { AName : string; APIMeta : option MetaExpr }.

(** The dynamic value of [eval.Current()], by the cases the DSL functions
    switch on; [EOther] is any other definition (or none). *)
Inductive Expr :=
  | ECompositeExpr (c : CompositeExpr)
  | EAttributeExpr (a : AttributeExpr)
  | EResultTypeExpr (rt : ResultTypeExpr)
  | EMethodExpr (m : MethodExpr)
  | EServiceExpr (s : ServiceExpr)
  | EAPIExpr (api : APIExpr)
  | EOther (name : string).

End expr.

Import expr.

(* ------------------------------------------------------------------ *)
(** ** Package eval: current definition and error reporting *)

Module eval.

(** Reported errors, one constructor per call site with the arguments of
    its format string. *)
Inductive Error :=
  (** "value %#v at index %d is incompatible with attribute of type %s" *)
  | ErrIncompatibleValue (v : Value) (i : nat) (typeName : string)
  (** "invalid validation format %q" *)
  | ErrInvalidFormat (f : string)
  (** "invalid %s validation definition: attribute must be %s (but type is %s)" *)
  | ErrIncompatibleAttributeType (validation expected actual : string)
  (** "invalid pattern %#v, %s" *)
  | ErrInvalidPattern (p : string) (err : string)
  (** "invalid number value %#v" *)
  | ErrInvalidNumber (v : Value)
  (** [eval.IncompatibleDSL()] *)
  | ErrIncompatibleDSL.

Record EvalState := mkState { Current : Expr; Errors : list Error }.

(** [eval.ReportError]: record the error, evaluation goes on. *)
Definition ReportError (s : EvalState) (e : Error) : EvalState :=
  mkState (Current s) (Errors s ++ [e]).

Definition IncompatibleDSL (s : EvalState) : EvalState :=
  ReportError s ErrIncompatibleDSL.

(** The definition currently open is replaced by its updated version. *)
Definition SetCurrent (s : EvalState) (e : Expr) : EvalState :=
  mkState e (Errors s).

(** [incompatibleAttributeType(validation, actual, expected)]. *)
Definition incompatibleAttributeType (validation actual expected : string) : Error :=
  ErrIncompatibleAttributeType validation expected actual.

End eval.

Import eval.

(* ------------------------------------------------------------------ *)
(** ** Conversions to float64 (packages reflect and strconv) *)

Module strconv.

Definition prec64 : Z := 53.
Definition emax64 : Z := 1024.

(** Go's conversion of an integer to [float64] (rounding to nearest even). *)
Definition float64_of_Z (z : Z) : spec_float :=
  binary_normalize prec64 emax64 z 0 false.

(** Go's conversion of a [float32] to [float64] (exact). *)
Definition float64_of_float32 (f : spec_float) : spec_float :=
  match f with
  | S754_finite sx mx ex => binary_normalize prec64 emax64 (cond_Zopp sx (Zpos mx)) ex sx
  | _ => f
  end.

(** The binary64 value nearest (ties to even) to [(-1)^neg * m * 10^e10],
    as [strconv.ParseFloat] rounds a decimal literal. *)
Definition float64_of_decimal (neg : bool) (m e10 : Z) : spec_float :=
  if Z.eqb m 0 then S754_zero neg
  else if Z.leb 0 e10 then binary_normalize prec64 emax64 (cond_Zopp neg (m * 10 ^ e10)) 0 neg
  else let '(q, e, l) := SFdiv_core_binary prec64 emax64 m 0 (10 ^ (- e10)) 0 in
       binary_round_aux prec64 emax64 neg q e l.

Definition lower (c : ascii) : ascii :=
  let n := nat_of_ascii c in
  if (65 <=? n)%nat && (n <=? 90)%nat then ascii_of_nat (n + 32) else c.

Fixpoint lowerString (s : string) : string :=
  match s with
  | EmptyString => EmptyString
  | String c r => String (lower c) (lowerString r)
  end.

Definition digitVal (c : ascii) : option Z :=
  let n := nat_of_ascii c in
  if (48 <=? n)%nat && (n <=? 57)%nat then Some (Z.of_nat (n - 48)) else None.

(** [special]: an optional sign followed by "inf" or "infinity", or "nan"
    without sign, ignoring case. *)
Definition special (s : string) : option spec_float :=
  let '(neg, signed, r) :=
    match s with
    | String "+" r => (false, true, r)
    | String "-" r => (true, true, r)
    | _ => (false, false, s)
    end in
  let l := lowerString r in
  if String.eqb l "inf" || String.eqb l "infinity" then Some (S754_infinity neg)
  else if negb signed && String.eqb l "nan" then Some S754_nan
  else None.

(** The mantissa loop of [readFloat]: digits with at most one point.
    Returns the digits read as an integer, the number of digits after the
    point, whether a digit was seen, and the rest of the input. *)
Fixpoint readMantissa (s : string) (m : Z) (sawdot : bool) (frac : Z) (sawdigits : bool)
  : Z * Z * bool * string :=
  match s with
  | EmptyString => (m, frac, sawdigits, EmptyString)
  | String c r =>
      if ascii_dec c "." then
        if sawdot then (m, frac, sawdigits, s) else readMantissa r m true frac sawdigits
      else match digitVal c with
           | Some d => readMantissa r (10 * m + d) sawdot (if sawdot then frac + 1 else frac) true
           | None => (m, frac, sawdigits, s)
           end
  end.

(** The exponent digits: [if e < 10000 { e = e*10 + int(s[i]) - '0' }]. *)
Fixpoint readExpDigits (s : string) (e : Z) : Z * string :=
  match s with
  | EmptyString => (e, EmptyString)
  | String c r =>
      match digitVal c with
      | Some d => readExpDigits r (if e <? 10000 then e * 10 + d else e)
      | None => (e, s)
      end
  end.

(** After the exponent character: an optional sign and at least one digit. *)
Definition readExponent (s : string) : option (Z * string) :=
  let '(esign, r) :=
    match s with
    | String "+" r => (1, r)
    | String "-" r => (-1, r)
    | _ => (1, s)
    end in
  match r with
  | String c _ =>
      match digitVal c with
      | Some _ => let '(e, rest) := readExpDigits r 0 in Some (esign * e, rest)
      | None => None
      end
  | EmptyString => None
  end.

(** [readFloat] on the whole string, decimal syntax: sign, mantissa,
    optional exponent; the result is the sign, the digits and the decimal
    exponent.  The digit-separating underscores and the hexadecimal
    mantissas that recent Go releases also accept are not modelled: the
    model rejects them. *)
Definition readFloat (s : string) : option (bool * Z * Z) :=
  let '(neg, r) :=
    match s with
    | String "+" r => (false, r)
    | String "-" r => (true, r)
    | _ => (false, s)
    end in
  let '(m, frac, sawdigits, r) := readMantissa r 0 false 0 false in
  if negb sawdigits then None else
  match r with
  | EmptyString => Some (neg, m, - frac)
  | String c r' =>
      if ascii_dec (lower c) "e" then
        match readExponent r' with
        | Some (e, EmptyString) => Some (neg, m, e - frac)
        | _ => None
        end
      else None
  end.

(** [strconv.ParseFloat(s, 64)]: [None] when it returns an error, i.e. a
    syntax error or a finite literal that rounds to an infinity
    ([ErrRange]). *)
Definition ParseFloat (s : string) : option spec_float :=
  match special s with
  | Some f => Some f
  | None =>
      match readFloat s with
      | None => None
      | Some (neg, m, e10) =>
          match float64_of_decimal neg m e10 with
          | S754_infinity _ => None
          | f => Some f
          end
      end
  end.

End strconv.

Import strconv.

(* ------------------------------------------------------------------ *)
(** ** Package dsl *)

Module dsl.

(** Record updates of [AttributeExpr] and [ValidationExpr]. *)
Definition SetAttrMeta (a : AttributeExpr) (m : option MetaExpr) : AttributeExpr :=
  mkAttribute (AttrType a) (Validation a) m.

Definition SetValidation (a : AttributeExpr) (v : ValidationExpr) : AttributeExpr :=
  mkAttribute (AttrType a) (Some v) (expr.Meta a).

(** [if a.Validation == nil { a.Validation = &expr.ValidationExpr{} }]. *)
Definition ensureValidation (a : AttributeExpr) : ValidationExpr :=
  match Validation a with None => emptyValidation | Some v => v end.

Definition withValues (v : ValidationExpr) (x : list Value) : ValidationExpr :=
  mkValidation x (Format v) (Pattern v) (Minimum v) (Maximum v) (MinLength v) (MaxLength v) (Required v).
Definition withFormat (v : ValidationExpr) (x : string) : ValidationExpr :=
  mkValidation (Values v) x (Pattern v) (Minimum v) (Maximum v) (MinLength v) (MaxLength v) (Required v).
Definition withPattern (v : ValidationExpr) (x : string) : ValidationExpr :=
  mkValidation (Values v) (Format v) x (Minimum v) (Maximum v) (MinLength v) (MaxLength v) (Required v).
Definition withMinimum (v : ValidationExpr) (x : spec_float) : ValidationExpr :=
  mkValidation (Values v) (Format v) (Pattern v) (Some x) (Maximum v) (MinLength v) (MaxLength v) (Required v).
Definition withMaximum (v : ValidationExpr) (x : spec_float) : ValidationExpr :=
  mkValidation (Values v) (Format v) (Pattern v) (Minimum v) (Some x) (MinLength v) (MaxLength v) (Required v).
Definition withMinLength (v : ValidationExpr) (x : Z) : ValidationExpr :=
  mkValidation (Values v) (Format v) (Pattern v) (Minimum v) (Maximum v) (Some x) (MaxLength v) (Required v).
Definition withMaxLength (v : ValidationExpr) (x : Z) : ValidationExpr :=
  mkValidation (Values v) (Format v) (Pattern v) (Minimum v) (Maximum v) (MinLength v) (Some x) (Required v).

(** [AddRequired], a method of [*ValidationExpr], of package expr, not under src/.
    Modelled from the spec: "appends [names] to the accumulated
    required-name set, deduplicating is the caller's responsibility (not
    enforced here)". *)
Definition AddRequired (v : ValidationExpr) (names : list string) : ValidationExpr :=
  mkValidation (Values v) (Format v) (Pattern v) (Minimum v) (Maximum v) (MinLength v) (MaxLength v)
    (Required v ++ names).

(* ---------------------------------------------------------------- *)
(** *** Meta (the unnamed source file) *)

(** The closure [appendMeta] of [Meta]:
    [if meta == nil { meta = make(...) }; meta[name] = append(meta[name], value...)]. *)
Definition appendMeta (meta : option MetaExpr) (name : string) (value : list string)
  : option MetaExpr :=
  let m : MetaExpr := match meta with None => ∅ | Some m => m end in
  Some (<[name := default [] (m !! name) ++ value]> m).

Definition Meta (name : string) (value : list string) (s : EvalState) : EvalState :=
  match Current s with
  | ECompositeExpr c =>
      let att := CAttribute c in
      SetCurrent s (ECompositeExpr (mkComposite (CName c)
        (SetAttrMeta att (appendMeta (expr.Meta att) name value))))
  | EAttributeExpr a =>
      SetCurrent s (EAttributeExpr (SetAttrMeta a (appendMeta (expr.Meta a) name value)))
  | EResultTypeExpr rt =>
      let att := RTAttribute rt in
      SetCurrent s (EResultTypeExpr (mkResultType (Identifier rt)
        (SetAttrMeta att (appendMeta (expr.Meta att) name value))))
  | EMethodExpr m =>
      SetCurrent s (EMethodExpr (mkMethod (MName m) (appendMeta (MMeta m) name value)))
  | EServiceExpr sv =>
      SetCurrent s (EServiceExpr (mkService (SName sv) (appendMeta (SMeta sv) name value)))
  | EAPIExpr api =>
      SetCurrent s (EAPIExpr (mkAPI (AName api) (appendMeta (APIMeta api) name value)))
  | EOther _ => IncompatibleDSL s
  end.

(* ---------------------------------------------------------------- *)
(** *** Validations (validation.go) *)

Section Validations.

(** [a.Type.IsCompatible(v)], of package expr. *)
Variable IsCompatible : DataType -> Value -> bool.
(** [MapVal.ToMap()] and [ArrayVal.ToSlice()], of package expr: the
    entries of the converted map and slice. *)
Variable ToMap : list (Value * Value) -> list (Value * Value).
Variable ToSlice : list Value -> list Value.
(** [a.IsSupportedValidationFormat(f)], of package expr. *)
Variable IsSupportedValidationFormat : string -> bool.
(** [regexp.Compile(p)]: [None] when it succeeds, [Some err] on error. *)
Variable regexpCompile : string -> option string.

(** The first loop of [Enum]: report every incompatible value with its
    index, and clear [ok] when there is one. *)
Fixpoint enumCheck (t : option DataType) (i : nat) (vals : list Value) (ok : bool)
  (s : EvalState) : bool * EvalState :=
  match vals with
  | [] => (ok, s)
  | v :: vs =>
      match t with
      | Some ty =>
          if negb (IsCompatible ty v)
          then enumCheck t (S i) vs false (ReportError s (ErrIncompatibleValue v i (Name ty)))
          else enumCheck t (S i) vs ok s
      | None => enumCheck t (S i) vs ok s
      end
  end.

(** The type switch of the second loop of [Enum]. *)
Definition enumValue (v : Value) : Value :=
  match v with
  | VMapVal m => VMap (ToMap m)
  | VArrayVal l => VSlice (ToSlice l)
  | _ => v
  end.

Definition Enum (vals : list Value) (s : EvalState) : EvalState :=
  match Current s with
  | EAttributeExpr a =>
      let '(ok, s') := enumCheck (AttrType a) 0 vals true s in
      if ok
      then SetCurrent s' (EAttributeExpr (SetValidation a
             (withValues (ensureValidation a) (map enumValue vals))))
      else s'
  | _ => s
  end.

Definition Format (f : string) (s : EvalState) : EvalState :=
  match Current s with
  | EAttributeExpr a =>
      let s1 := if IsSupportedValidationFormat f then s else ReportError s (ErrInvalidFormat f) in
      let store := SetCurrent s1 (EAttributeExpr (SetValidation a
                     (withFormat (ensureValidation a) f))) in
      match AttrType a with
      | Some t =>
          if bool_decide (Kind_of t <> StringKind)
          then ReportError s1 (incompatibleAttributeType "format" (Name t) "a string")
          else store
      | None => store
      end
  | _ => s
  end.

Definition Pattern (p : string) (s : EvalState) : EvalState :=
  match Current s with
  | EAttributeExpr a =>
      let compile :=
        match regexpCompile p with
        | Some err => ReportError s (ErrInvalidPattern p err)
        | None => SetCurrent s (EAttributeExpr (SetValidation a
                    (withPattern (ensureValidation a) p)))
        end in
      match AttrType a with
      | Some t =>
          if bool_decide (Kind_of t <> StringKind)
          then ReportError s (incompatibleAttributeType "pattern" (Name t) "a string")
          else compile
      | None => compile
      end
  | _ => s
  end.

Definition isNumericKind (k : Kind) : bool :=
  match k with
  | IntKind | UIntKind | Int32Kind | UInt32Kind | Int64Kind | UInt64Kind
  | Float32Kind | Float64Kind => true
  | _ => false
  end.

(** The type switch of [Minimum] and [Maximum]: [float32, float64, int,
    int8, int16, int32, int64, uint8, uint16, uint32, uint64] are
    converted with [reflect], a [string] is parsed with
    [strconv.ParseFloat]; [None] is the [invalid number value] path (a
    parse error, or any other dynamic type, [uint] and [uintptr]
    included). *)
Definition numberValue (val : Value) : option spec_float :=
  match val with
  | VFloat32 f => Some (float64_of_float32 f)
  | VFloat64 f => Some f
  | VInteger GInt z | VInteger GInt8 z | VInteger GInt16 z | VInteger GInt32 z
  | VInteger GInt64 z | VInteger GUint8 z | VInteger GUint16 z
  | VInteger GUint32 z | VInteger GUint64 z => Some (float64_of_Z z)
  | VString v => ParseFloat v
  | _ => None
  end.

Definition Minimum (val : Value) (s : EvalState) : EvalState :=
  match Current s with
  | EAttributeExpr a =>
      let store :=
        match numberValue val with
        | None => ReportError s (ErrInvalidNumber val)
        | Some f => SetCurrent s (EAttributeExpr (SetValidation a
                      (withMinimum (ensureValidation a) f)))
        end in
      match AttrType a with
      | Some t =>
          if negb (isNumericKind (Kind_of t))
          then ReportError s (incompatibleAttributeType "minimum" (Name t) "an integer or a number")
          else store
      | None => store
      end
  | _ => s
  end.

Definition Maximum (val : Value) (s : EvalState) : EvalState :=
  match Current s with
  | EAttributeExpr a =>
      let store :=
        match numberValue val with
        | None => ReportError s (ErrInvalidNumber val)
        | Some f => SetCurrent s (EAttributeExpr (SetValidation a
                      (withMaximum (ensureValidation a) f)))
        end in
      match AttrType a with
      | Some t =>
          if negb (isNumericKind (Kind_of t))
          then ReportError s (incompatibleAttributeType "maximum" (Name t) "an integer or a number")
          else store
      | None => store
      end
  | _ => s
  end.

Definition isLengthKind (k : Kind) : bool :=
  match k with
  | BytesKind | StringKind | ArrayKind | MapKind => true
  | _ => false
  end.

Definition MinLength (val : Z) (s : EvalState) : EvalState :=
  match Current s with
  | EAttributeExpr a =>
      let store := SetCurrent s (EAttributeExpr (SetValidation a
                     (withMinLength (ensureValidation a) val))) in
      match AttrType a with
      | Some t =>
          if negb (isLengthKind (Kind_of t))
          then ReportError s (incompatibleAttributeType "minimum length" (Name t) "a string or an array")
          else store
      | None => store
      end
  | _ => s
  end.

Definition MaxLength (val : Z) (s : EvalState) : EvalState :=
  match Current s with
  | EAttributeExpr a =>
      let store := SetCurrent s (EAttributeExpr (SetValidation a
                     (withMaxLength (ensureValidation a) val))) in
      match AttrType a with
      | Some t =>
          if negb (isLengthKind (Kind_of t))
          then ReportError s (incompatibleAttributeType "maximum length" (Name t) "a string or an array")
          else store
      | None => store
      end
  | _ => s
  end.

(** The part of [Required] after the type switch, on the attribute [att]
    it selected; [rebuild] puts the updated attribute back into the
    current definition (the Go code mutates it through the pointer). *)
Definition requiredOn (att : AttributeExpr) (rebuild : AttributeExpr -> Expr)
  (names : list string) (s : EvalState) : EvalState :=
  let store := SetCurrent s (rebuild (SetValidation att
                 (AddRequired (ensureValidation att) names))) in
  match AttrType att with
  | Some t =>
      if bool_decide (Kind_of t <> ObjectKind)
      then ReportError s (incompatibleAttributeType "required" (Name t) "an object")
      else store
  | None => store
  end.

Definition Required (names : list string) (s : EvalState) : EvalState :=
  match Current s with
  | EAttributeExpr def => requiredOn def EAttributeExpr names s
  | EResultTypeExpr def =>
      requiredOn (RTAttribute def) (fun att => EResultTypeExpr (mkResultType (Identifier def) att)) names s
  | _ => IncompatibleDSL s
  end.

End Validations.


(* ---------------------------------------------------------------- *)
(** *** Observations of the current definition *)

(** The metadata record of the current definition, as [Meta] selects it. *)
Definition CurrentMeta (e : Expr) : option MetaExpr :=
  match e with
  | ECompositeExpr c => expr.Meta (CAttribute c)
  | EAttributeExpr a => expr.Meta a
  | EResultTypeExpr rt => expr.Meta (RTAttribute rt)
  | EMethodExpr m => MMeta m
  | EServiceExpr sv => SMeta sv
  | EAPIExpr api => APIMeta api
  | EOther _ => None
  end.

(** The definitions [Meta] accepts. *)
Definition IsMetaTarget (e : Expr) : bool :=
  match e with EOther _ => false | _ => true end.

(** [meta[key]] of the current definition (nil when absent). *)
Definition MetaValues (e : Expr) (key : string) : list string :=
  match CurrentMeta e with
  | None => []
  | Some m => default [] (m !! key)
  end.

(** The attribute holding the validations of the current definition. *)
Definition AttrOf (e : Expr) : option AttributeExpr :=
  match e with
  | EAttributeExpr a => Some a
  | EResultTypeExpr rt => Some (RTAttribute rt)
  | _ => None
  end.

Definition ValidationOf (e : Expr) : option ValidationExpr :=
  match AttrOf e with Some a => Validation a | None => None end.

(** [Validation.Required] of the current attribute (nil when absent). *)
Definition RequiredOf (e : Expr) : list string :=
  match ValidationOf e with Some v => expr.Required v | None => [] end.

(** The validation formats listed in the doc comment of [Format], by the
    values of their constants in package expr ([FormatDate] is "date",
    ...). *)
Definition supportedFormats : list string :=
  ["date"; "date-time"; "uuid"; "email"; "hostname"; "ipv4"; "ipv6"; "ip";
   "uri"; "mac"; "cidr"; "regexp"; "json"; "rfc1123"]%string.

Definition IsSupportedFormat (f : string) : bool :=
  bool_decide (f ∈ supportedFormats).

End dsl.

Import dsl.

(* ================================================================== *)
(** * Properties *)

(** An attribute whose type is unknown or of one of the given kinds. *)
Definition typeIsNilOr (a : AttributeExpr) (ok : Kind -> bool) : Prop :=
  match AttrType a with None => True | Some t => ok (Kind_of t) = true end.

(** The float64 value 42.0: 5910974510923776 * 2^-47. *)
Definition float64_42 : spec_float := S754_finite false 5910974510923776 (-47).

(** Sample definitions used by the concrete instances below. *)
Definition intType : DataType := mkDataType IntKind "Int".
Definition stringType : DataType := mkDataType StringKind "String".
Definition objectType : DataType := mkDataType ObjectKind "Object".

Definition attrOfType (t : option DataType) : AttributeExpr := mkAttribute t None None.

(** A compatibility test that accepts integers only. *)
Definition integersOnly (t : DataType) (v : Value) : bool :=
  match v with VInteger _ _ => true | _ => false end.

(** A stand-in for [regexp.Compile] that rejects the unbalanced bracket
    expression "[a-z". *)
Definition bracketCompile (p : string) : option string :=
  if String.eqb p "[a-z" then Some "missing closing ]" else None.

(** The value of a string of decimal digits, read after [acc]. *)
Fixpoint decimalValue (s : string) (acc : Z) : Z :=
  match s with
  | EmptyString => acc
  | String c r => decimalValue r (10 * acc + default 0 (digitVal c))
  end.

Fixpoint allDigits (s : string) : bool :=
  match s with
  | EmptyString => true
  | String c r => bool_decide (is_Some (digitVal c)) && allDigits r
  end.

Definition isInfinite (f : spec_float) : bool :=
  match f with S754_infinity _ => true | _ => false end.

(** The attribute a definition carries, as [Meta] annotates it: the
    [Attribute()] of a composite, the attribute itself, or the embedded
    attribute of a result type. *)
Definition AnnotatedAttr (e : Expr) : option AttributeExpr :=
  match e with
  | ECompositeExpr c => Some (CAttribute c)
  | EAttributeExpr a => Some a
  | EResultTypeExpr rt => Some (RTAttribute rt)
  | _ => None
  end.

(** [s'] extends the error log of [s] by at most [n] errors. *)
Definition appendsAtMost (n : nat) (s s' : EvalState) : Prop :=
  exists l, Errors s' = Errors s ++ l /\ (length l <= n)%nat.

(** [Meta] on an accepted target appends to [meta[key]], creates the
    record, keeps the target kind and reports nothing. *)
Lemma Meta_step (s : EvalState) (K : string) (V : list string) :
  IsMetaTarget (Current s) = true ->
  MetaValues (Current (Meta K V s)) K = MetaValues (Current s) K ++ V /\
  CurrentMeta (Current (Meta K V s)) <> None /\
  IsMetaTarget (Current (Meta K V s)) = true /\
  Errors (Meta K V s) = Errors s.
Proof.
  destruct s as [e errs]; simpl.
  destruct e as [[? [? ? meta]]|[? ? meta]|[? [? ? meta]]|[? meta]|[? meta]|[? meta]|?];
    simpl; intros H; try discriminate;
    unfold MetaValues, appendMeta; simpl;
    (split; [rewrite lookup_insert_eq; destruct meta; reflexivity
            | repeat split; discriminate]).
Qed.

(** C5: on an accepted metadata target, [Meta K V1] then [Meta K V2]
    leave under [K] the values stored before, then [V1], then [V2]
    (so exactly [V1 ++ V2] when [K] held nothing): values are appended in
    call order, never replaced nor deduplicated, and the metadata record
    exists afterwards. *)
Theorem Meta_appends_in_call_order (s : EvalState) (K : string) (V1 V2 : list string) :
  IsMetaTarget (Current s) = true ->
  MetaValues (Current (Meta K V2 (Meta K V1 s))) K = MetaValues (Current s) K ++ V1 ++ V2 /\
  (MetaValues (Current s) K = [] ->
   MetaValues (Current (Meta K V2 (Meta K V1 s))) K = V1 ++ V2) /\
  CurrentMeta (Current (Meta K V2 (Meta K V1 s))) <> None /\
  Errors (Meta K V2 (Meta K V1 s)) = Errors s.
Proof.
  intros H.
  destruct (Meta_step s K V1 H) as (H1 & _ & T1 & E1).
  destruct (Meta_step (Meta K V1 s) K V2 T1) as (H2 & C2 & _ & E2).
  rewrite H2, H1, <- app_assoc.
  split; [reflexivity|].
  split; [intros ->; reflexivity|].
  split; [exact C2|].
  rewrite E2; exact E1.
Qed.

(** C1: the constraint functions other than [Required] do nothing at all,
    and in particular report no error, when the current definition is not
    an attribute; [Required] reports [IncompatibleDSL] when it is neither
    an attribute nor a result type. *)
Theorem constraints_silent_on_other_targets
  IsCompatible ToMap ToSlice IsSupportedValidationFormat regexpCompile
  (e : Expr) (errs : list Error) vals f p v n names :
  (forall a, e <> EAttributeExpr a) ->
  Enum IsCompatible ToMap ToSlice vals (mkState e errs) = mkState e errs /\
  Format IsSupportedValidationFormat f (mkState e errs) = mkState e errs /\
  Pattern regexpCompile p (mkState e errs) = mkState e errs /\
  Minimum v (mkState e errs) = mkState e errs /\
  Maximum v (mkState e errs) = mkState e errs /\
  MinLength n (mkState e errs) = mkState e errs /\
  MaxLength n (mkState e errs) = mkState e errs /\
  (AttrOf e = None -> Required names (mkState e errs) = mkState e (errs ++ [ErrIncompatibleDSL])).
Proof.
  intros H.
  destruct e; try (exfalso; eapply H; reflexivity);
    repeat split; simpl; intros; try discriminate; reflexivity.
Qed.

(** C2: [Format] with a format outside the supported set, on an attribute
    of string or unknown type, reports the invalid format and still
    stores it. *)
Theorem Format_stores_unsupported_format
  IsSupportedValidationFormat (f : string) (a : AttributeExpr) (errs : list Error) :
  IsSupportedValidationFormat f = false ->
  typeIsNilOr a (fun k => bool_decide (k = StringKind)) ->
  Format IsSupportedValidationFormat f (mkState (EAttributeExpr a) errs) =
  mkState (EAttributeExpr (SetValidation a (withFormat (ensureValidation a) f)))
          (errs ++ [ErrInvalidFormat f]).
Proof.
  intros Hf Ht. unfold Format; simpl. rewrite Hf.
  unfold typeIsNilOr in Ht.
  destruct (AttrType a) as [t|]; [|reflexivity].
  apply bool_decide_eq_true in Ht.
  rewrite bool_decide_false by (intros Hn; exact (Hn Ht)).
  reflexivity.
Qed.

(** The check loop of [Enum], on a known type: the flag records whether
    every value is compatible, and one error is appended per incompatible
    value, with its index, in order. *)
Lemma enumCheck_known IsCompatible (t : DataType) (vals : list Value) :
  forall (i : nat) (ok : bool) (s : EvalState),
  enumCheck IsCompatible (Some t) i vals ok s =
  (ok && forallb (IsCompatible t) vals,
   mkState (Current s)
     (Errors s ++ omap (fun x => x) (imap (fun j v =>
        if IsCompatible t v then None else Some (ErrIncompatibleValue v (i + j) (Name t))) vals))).
Proof.
  induction vals as [|v vs IH]; intros i ok s; simpl.
  - rewrite andb_true_r, app_nil_r. destruct s; reflexivity.
  - assert (Hx : imap ((λ (j : nat) (v0 : Value), if IsCompatible t v0 then None
              else Some (ErrIncompatibleValue v0 (i + j) (Name t))) ∘ S) vs =
                 imap (λ (j : nat) (v0 : Value), if IsCompatible t v0 then None
              else Some (ErrIncompatibleValue v0 (S (i + j)) (Name t))) vs).
    { apply imap_ext. intros j x _. unfold compose. simpl. by rewrite Nat.add_succ_r. }
    destruct (IsCompatible t v) eqn:Hv; simpl; rewrite IH; simpl;
      rewrite ?Nat.add_0_r, ?andb_false_r, Hx; [reflexivity|].
    rewrite <- app_assoc. reflexivity.
Qed.

(** On an unknown type the check loop reports nothing. *)
Lemma enumCheck_unknown IsCompatible (vals : list Value) :
  forall (i : nat) (ok : bool) (s : EvalState),
  enumCheck IsCompatible None i vals ok s = (ok, s).
Proof. induction vals as [|v vs IH]; intros; simpl; [reflexivity|apply IH]. Qed.

(** No error is reported when every value is compatible. *)
Lemma enumCheck_compatible_silent IsCompatible (t : DataType) (vals : list Value) :
  forall (f : nat -> Value -> Error),
  forallb (IsCompatible t) vals = true ->
  omap (fun x => x) (imap (fun j v => if IsCompatible t v then None else Some (f j v)) vals) = [].
Proof.
  induction vals as [|v vs IH]; intros f Hf; simpl in *; [reflexivity|].
  apply andb_prop in Hf as [Hv Hvs]. rewrite Hv.
  exact (IH (fun j x => f (S j) x) Hvs).
Qed.

(** C3: [Enum] on an attribute of known type reports one error per
    incompatible value, naming the value and its index, for all of them in
    order; when one value is incompatible the attribute is left unchanged
    (no value is stored). *)
Theorem Enum_all_or_nothing IsCompatible ToMap ToSlice
  (a : AttributeExpr) (t : DataType) (vals : list Value) (errs : list Error) :
  AttrType a = Some t ->
  Errors (Enum IsCompatible ToMap ToSlice vals (mkState (EAttributeExpr a) errs)) =
    errs ++ omap (fun x => x) (imap (fun i v =>
      if IsCompatible t v then None else Some (ErrIncompatibleValue v i (Name t))) vals) /\
  (existsb (fun v => negb (IsCompatible t v)) vals = true ->
   Current (Enum IsCompatible ToMap ToSlice vals (mkState (EAttributeExpr a) errs)) =
   EAttributeExpr a).
Proof.
  intros Ht. unfold Enum; simpl. rewrite Ht, enumCheck_known; simpl.
  assert (Hall : forallb (IsCompatible t) vals = true ->
                 existsb (fun v => negb (IsCompatible t v)) vals = false).
  { intros Hf. apply not_true_is_false. intros Hex.
    apply existsb_exists in Hex as (x & Hin & Hx).
    rewrite forallb_forall in Hf. rewrite (Hf x Hin) in Hx. discriminate. }
  destruct (forallb (IsCompatible t) vals) eqn:Hf; simpl.
  - split; [reflexivity|]. intros Hex. rewrite Hall in Hex by reflexivity. discriminate.
  - split; reflexivity.
Qed.

(** C9, as the code has it: a successful [Enum] (unknown type, or every
    value compatible) stores the supplied list in order, each value
    unchanged except that a [MapVal] is stored as the plain map
    [ToMap()] returns and an [ArrayVal] as the slice [ToSlice()]
    returns. *)
Theorem Enum_stores_converted_values IsCompatible ToMap ToSlice
  (a : AttributeExpr) (vals : list Value) (errs : list Error) :
  (AttrType a = None \/
   exists t, AttrType a = Some t /\ forallb (IsCompatible t) vals = true) ->
  Enum IsCompatible ToMap ToSlice vals (mkState (EAttributeExpr a) errs) =
    mkState (EAttributeExpr (SetValidation a
      (withValues (ensureValidation a) (map (enumValue ToMap ToSlice) vals)))) errs /\
  (forall v, (forall m, v <> VMapVal m) -> (forall l, v <> VArrayVal l) ->
   enumValue ToMap ToSlice v = v).
Proof.
  intros Hs. split.
  - unfold Enum; simpl.
    destruct Hs as [Hn | (t & Ht & Hf)].
    + rewrite Hn, enumCheck_unknown. reflexivity.
    + rewrite Ht, enumCheck_known, Hf; simpl.
      rewrite (enumCheck_compatible_silent IsCompatible t vals _ Hf), app_nil_r.
      reflexivity.
  - intros v Hm Hl. destruct v; try reflexivity.
    + exfalso; eapply Hm; reflexivity.
    + exfalso; eapply Hl; reflexivity.
Qed.

(** C9 is refuted: a [MapVal] passed to a successful [Enum] is not
    stored as given, but as the plain map [ToMap()] returns (here with an
    entry-preserving [ToMap]). *)
Lemma Enum_mapval_not_verbatim :
  exists v,
    ValidationOf (Current (Enum (fun _ _ => true) (fun m => m) (fun l => l) [VMapVal []]
      (mkState (EAttributeExpr (mkAttribute None None None)) []))) = Some v /\
    Values v = [VMap []] /\ Values v <> [VMapVal []].
Proof.
  eexists. split; [reflexivity|]. split; [reflexivity|]. discriminate.
Qed.

(** C4 (corrected): on an attribute of numeric or unknown type,
    [Minimum] and [Maximum] store the float64 value 42.0 for the int 42,
    the string "42" and the float64 42.0 (the value of the Go literal
    [42.0]).  Every string that [strconv.ParseFloat] rejects ("not-a-number"
    among them) gives [invalid number value] and leaves the attribute
    unchanged; the special values "Inf", "Infinity" (with an optional sign)
    and "NaN", in any case, are not decimal numbers but are accepted by
    [ParseFloat] and stored, with no error. *)
Theorem Minimum_Maximum_normalize (a : AttributeExpr) (errs : list Error) :
  typeIsNilOr a isNumericKind ->
  ParseFloat "42.0" = Some float64_42 /\
  Minimum (VInteger GInt 42) (mkState (EAttributeExpr a) errs) =
    mkState (EAttributeExpr (SetValidation a (withMinimum (ensureValidation a) float64_42))) errs /\
  Minimum (VString "42") (mkState (EAttributeExpr a) errs) =
    mkState (EAttributeExpr (SetValidation a (withMinimum (ensureValidation a) float64_42))) errs /\
  Minimum (VFloat64 float64_42) (mkState (EAttributeExpr a) errs) =
    mkState (EAttributeExpr (SetValidation a (withMinimum (ensureValidation a) float64_42))) errs /\
  Minimum (VString "not-a-number") (mkState (EAttributeExpr a) errs) =
    mkState (EAttributeExpr a) (errs ++ [ErrInvalidNumber (VString "not-a-number")]) /\
  Maximum (VInteger GInt 42) (mkState (EAttributeExpr a) errs) =
    mkState (EAttributeExpr (SetValidation a (withMaximum (ensureValidation a) float64_42))) errs /\
  Maximum (VString "42") (mkState (EAttributeExpr a) errs) =
    mkState (EAttributeExpr (SetValidation a (withMaximum (ensureValidation a) float64_42))) errs /\
  Maximum (VFloat64 float64_42) (mkState (EAttributeExpr a) errs) =
    mkState (EAttributeExpr (SetValidation a (withMaximum (ensureValidation a) float64_42))) errs /\
  Maximum (VString "not-a-number") (mkState (EAttributeExpr a) errs) =
    mkState (EAttributeExpr a) (errs ++ [ErrInvalidNumber (VString "not-a-number")]) /\
  (forall s : string, ParseFloat s = None ->
     Minimum (VString s) (mkState (EAttributeExpr a) errs) =
       mkState (EAttributeExpr a) (errs ++ [ErrInvalidNumber (VString s)]) /\
     Maximum (VString s) (mkState (EAttributeExpr a) errs) =
       mkState (EAttributeExpr a) (errs ++ [ErrInvalidNumber (VString s)])) /\
  (forall (s : string) (f : spec_float), special s = Some f ->
     Minimum (VString s) (mkState (EAttributeExpr a) errs) =
       mkState (EAttributeExpr (SetValidation a (withMinimum (ensureValidation a) f))) errs /\
     Maximum (VString s) (mkState (EAttributeExpr a) errs) =
       mkState (EAttributeExpr (SetValidation a (withMaximum (ensureValidation a) f))) errs).
Proof.
  unfold typeIsNilOr, Minimum, Maximum; simpl.
  destruct (AttrType a) as [t|]; [intros Ht; rewrite Ht; simpl|intros _];
    (split; [reflexivity|]); do 8 (split; [reflexivity|]);
    (split; [intros s Hs; rewrite Hs; split; reflexivity|]);
    intros s f Hs; unfold ParseFloat; rewrite Hs; split; reflexivity.
Qed.

(** Counterexample to C4 as stated: "Inf", "-Infinity" and "NaN" do not
    parse as decimal numbers, yet [Minimum] and [Maximum] store +inf,
    -inf and NaN for them and report nothing. *)
Lemma Minimum_Maximum_accept_special_values :
  Minimum (VString "Inf") (mkState (EAttributeExpr (attrOfType (Some intType))) []) =
    mkState (EAttributeExpr (SetValidation (attrOfType (Some intType))
      (withMinimum emptyValidation (S754_infinity false)))) [] /\
  Minimum (VString "-Infinity") (mkState (EAttributeExpr (attrOfType (Some intType))) []) =
    mkState (EAttributeExpr (SetValidation (attrOfType (Some intType))
      (withMinimum emptyValidation (S754_infinity true)))) [] /\
  Maximum (VString "NaN") (mkState (EAttributeExpr (attrOfType (Some intType))) []) =
    mkState (EAttributeExpr (SetValidation (attrOfType (Some intType))
      (withMaximum emptyValidation S754_nan))) [].
Proof. vm_compute. split; [reflexivity|split; reflexivity]. Qed.

(** C6: on an attribute of unknown type no compatibility check is made:
    every constraint function goes straight to its value handling, and
    stores the (normalized) value unless that value itself is invalid. *)
Theorem constraints_unchecked_on_unknown_type
  IsCompatible ToMap ToSlice IsSupportedValidationFormat regexpCompile
  (a : AttributeExpr) (errs : list Error) vals f p v n names :
  AttrType a = None ->
  Enum IsCompatible ToMap ToSlice vals (mkState (EAttributeExpr a) errs) =
    mkState (EAttributeExpr (SetValidation a
      (withValues (ensureValidation a) (map (enumValue ToMap ToSlice) vals)))) errs /\
  Format IsSupportedValidationFormat f (mkState (EAttributeExpr a) errs) =
    mkState (EAttributeExpr (SetValidation a (withFormat (ensureValidation a) f)))
      (if IsSupportedValidationFormat f then errs else errs ++ [ErrInvalidFormat f]) /\
  Pattern regexpCompile p (mkState (EAttributeExpr a) errs) =
    match regexpCompile p with
    | None => mkState (EAttributeExpr (SetValidation a (withPattern (ensureValidation a) p))) errs
    | Some err => mkState (EAttributeExpr a) (errs ++ [ErrInvalidPattern p err])
    end /\
  Minimum v (mkState (EAttributeExpr a) errs) =
    match numberValue v with
    | Some x => mkState (EAttributeExpr (SetValidation a (withMinimum (ensureValidation a) x))) errs
    | None => mkState (EAttributeExpr a) (errs ++ [ErrInvalidNumber v])
    end /\
  Maximum v (mkState (EAttributeExpr a) errs) =
    match numberValue v with
    | Some x => mkState (EAttributeExpr (SetValidation a (withMaximum (ensureValidation a) x))) errs
    | None => mkState (EAttributeExpr a) (errs ++ [ErrInvalidNumber v])
    end /\
  MinLength n (mkState (EAttributeExpr a) errs) =
    mkState (EAttributeExpr (SetValidation a (withMinLength (ensureValidation a) n))) errs /\
  MaxLength n (mkState (EAttributeExpr a) errs) =
    mkState (EAttributeExpr (SetValidation a (withMaxLength (ensureValidation a) n))) errs /\
  Required names (mkState (EAttributeExpr a) errs) =
    mkState (EAttributeExpr (SetValidation a (AddRequired (ensureValidation a) names))) errs.
Proof.
  intros Hn.
  unfold Enum, Format, Pattern, Minimum, Maximum, MinLength, MaxLength, Required, requiredOn;
    simpl; rewrite Hn, enumCheck_unknown.
  repeat split;
    try (destruct (IsSupportedValidationFormat f); reflexivity);
    try (destruct (regexpCompile p); reflexivity);
    destruct (numberValue v); reflexivity.
Qed.

(** C7: [Pattern] on an attribute of string or unknown type reports the
    error and leaves the attribute unchanged when the expression does not
    compile, and stores the expression unchanged when it does. *)
Theorem Pattern_stored_iff_compiles regexpCompile (p : string) (a : AttributeExpr)
  (errs : list Error) :
  typeIsNilOr a (fun k => bool_decide (k = StringKind)) ->
  (forall err, regexpCompile p = Some err ->
   Pattern regexpCompile p (mkState (EAttributeExpr a) errs) =
   mkState (EAttributeExpr a) (errs ++ [ErrInvalidPattern p err])) /\
  (regexpCompile p = None ->
   Pattern regexpCompile p (mkState (EAttributeExpr a) errs) =
   mkState (EAttributeExpr (SetValidation a (withPattern (ensureValidation a) p))) errs).
Proof.
  unfold typeIsNilOr, Pattern; simpl.
  destruct (AttrType a) as [t|]; intros Ht.
  - apply bool_decide_eq_true in Ht.
    rewrite bool_decide_false by tauto.
    split; [intros err He|intros He]; rewrite He; reflexivity.
  - split; [intros err He|intros He]; rewrite He; reflexivity.
Qed.

(** [Required] on a target carrying an attribute (the attribute itself,
    or the one a result type embeds) of object or unknown type appends the
    names to that attribute's required list and reports nothing. *)
Lemma Required_target_step (s : EvalState) (a : AttributeExpr) (names : list string) :
  AttrOf (Current s) = Some a ->
  typeIsNilOr a (fun k => bool_decide (k = ObjectKind)) ->
  AttrOf (Current (Required names s)) = Some (SetValidation a (AddRequired (ensureValidation a) names)) /\
  Errors (Required names s) = Errors s.
Proof.
  destruct s as [e errs]. unfold typeIsNilOr, Required, requiredOn; simpl.
  destruct e as [c|a'|[id a']|m|sv|api|n]; simpl; intros He; try discriminate;
    injection He as <-; destruct (AttrType a') as [t|]; intros Ht;
    try (apply bool_decide_eq_true in Ht; rewrite bool_decide_false by tauto);
    split; reflexivity.
Qed.

(** C8: on a target of [Required] (an attribute, or a result type through
    its embedded attribute) of object or unknown type, [Required "a"] then
    [Required "b" "a"] append "a", "b", "a" to the required names (no
    deduplication: "a" twice and "b" once more than before, exactly
    [a; b; a] from an empty list) and report nothing; when the attribute
    has a known non-object kind [Required] reports the incompatible type
    and leaves the target unchanged. *)
Theorem Required_accumulates_without_dedup (e : Expr) (a : AttributeExpr) (errs : list Error) :
  AttrOf e = Some a ->
  (typeIsNilOr a (fun k => bool_decide (k = ObjectKind)) ->
   RequiredOf (Current (Required ["b"; "a"] (Required ["a"] (mkState e errs)))) =
     RequiredOf e ++ ["a"; "b"; "a"] /\
   count_occ String.string_dec
     (RequiredOf (Current (Required ["b"; "a"] (Required ["a"] (mkState e errs))))) "a" =
     (count_occ String.string_dec (RequiredOf e) "a" + 2)%nat /\
   count_occ String.string_dec
     (RequiredOf (Current (Required ["b"; "a"] (Required ["a"] (mkState e errs))))) "b" =
     (count_occ String.string_dec (RequiredOf e) "b" + 1)%nat /\
   (RequiredOf e = [] ->
    RequiredOf (Current (Required ["b"; "a"] (Required ["a"] (mkState e errs)))) =
      ["a"; "b"; "a"]) /\
   Errors (Required ["b"; "a"] (Required ["a"] (mkState e errs))) = errs) /\
  (forall (t : DataType) (names : list string),
   AttrType a = Some t -> Kind_of t <> ObjectKind ->
   Required names (mkState e errs) =
   mkState e (errs ++ [incompatibleAttributeType "required" (Name t) "an object"])).
Proof.
  intros He. split.
  - intros Ht.
    destruct (Required_target_step (mkState e errs) a ["a"] He Ht) as [HA1 HE1].
    assert (Ht1 : typeIsNilOr (SetValidation a (AddRequired (ensureValidation a) ["a"]))
                    (fun k => bool_decide (k = ObjectKind))) by (destruct a; exact Ht).
    destruct (Required_target_step _ _ ["b"; "a"] HA1 Ht1) as [HA2 HE2].
    assert (Hr : RequiredOf (Current (Required ["b"; "a"] (Required ["a"] (mkState e errs)))) =
                 RequiredOf e ++ ["a"; "b"; "a"]).
    { unfold RequiredOf, ValidationOf. rewrite HA2, He.
      unfold ensureValidation; simpl.
      destruct (Validation a); simpl; rewrite <- ?app_assoc; reflexivity. }
    rewrite Hr, !count_occ_app. simpl.
    split; [reflexivity|]. split; [lia|]. split; [lia|].
    split; [intros ->; reflexivity|]. rewrite HE2, HE1. reflexivity.
  - intros t names Ht Hk. unfold Required, requiredOn.
    destruct e as [c|a'|[id a']|m|sv|api|n]; simpl in He |- *; try discriminate;
      injection He as ->; rewrite Ht, bool_decide_true by exact Hk; reflexivity.
Qed.

(** C10: on an attribute of numeric or unknown type, [Minimum] and
    [Maximum] given a value that is neither a string nor one of the
    numeric types the type switch handles report [invalid number value]
    and leave the attribute unchanged. *)
Theorem Minimum_Maximum_reject_non_numbers (val : Value) (a : AttributeExpr) (errs : list Error) :
  typeIsNilOr a isNumericKind ->
  (forall x, val <> VString x) ->
  (forall f, val <> VFloat32 f) ->
  (forall f, val <> VFloat64 f) ->
  (forall k z, val = VInteger k z -> k = GUint \/ k = GUintptr) ->
  Minimum val (mkState (EAttributeExpr a) errs) =
    mkState (EAttributeExpr a) (errs ++ [ErrInvalidNumber val]) /\
  Maximum val (mkState (EAttributeExpr a) errs) =
    mkState (EAttributeExpr a) (errs ++ [ErrInvalidNumber val]).
Proof.
  intros Ht Hs H32 H64 Hi.
  assert (Hn : numberValue val = None).
  { destruct val as [| |k z|f|f|x| | | | |];
      try reflexivity;
      try (exfalso; eapply Hs; reflexivity);
      try (exfalso; eapply H32; reflexivity);
      try (exfalso; eapply H64; reflexivity).
    destruct (Hi k z eq_refl) as [-> | ->]; reflexivity. }
  unfold typeIsNilOr in Ht. unfold Minimum, Maximum; simpl.
  destruct (AttrType a) as [t|]; [rewrite Ht; simpl|]; rewrite Hn; split; reflexivity.
Qed.

(* ------------------------------------------------------------------ *)
(** ** Concrete instances of the properties *)

Lemma constraints_silent_on_other_targets_witness :
  (forall a, EMethodExpr (mkMethod "m" None) <> EAttributeExpr a) /\
  Enum integersOnly (fun m => m) (fun l => l) [VInteger GInt 1]
    (mkState (EMethodExpr (mkMethod "m" None)) []) = mkState (EMethodExpr (mkMethod "m" None)) [] /\
  Required ["a"] (mkState (EMethodExpr (mkMethod "m" None)) []) =
    mkState (EMethodExpr (mkMethod "m" None)) [ErrIncompatibleDSL].
Proof.
  assert (H : forall a, EMethodExpr (mkMethod "m" None) <> EAttributeExpr a) by discriminate.
  destruct (constraints_silent_on_other_targets integersOnly (fun m => m) (fun l => l)
              IsSupportedFormat bracketCompile (EMethodExpr (mkMethod "m" None)) []
              [VInteger GInt 1] "email" "x" VNil 0 ["a"] H)
    as (HE & _ & _ & _ & _ & _ & _ & HR).
  split; [exact H|]. split; [exact HE|]. apply HR. reflexivity.
Defined.

Lemma Format_stores_unsupported_format_witness :
  IsSupportedFormat "not-a-format" = false /\
  typeIsNilOr (attrOfType (Some stringType)) (fun k => bool_decide (k = StringKind)) /\
  Format IsSupportedFormat "not-a-format" (mkState (EAttributeExpr (attrOfType (Some stringType))) []) =
  mkState (EAttributeExpr (SetValidation (attrOfType (Some stringType))
    (withFormat emptyValidation "not-a-format"))) [ErrInvalidFormat "not-a-format"].
Proof.
  assert (H1 : IsSupportedFormat "not-a-format" = false) by (vm_compute; reflexivity).
  assert (H2 : typeIsNilOr (attrOfType (Some stringType)) (fun k => bool_decide (k = StringKind)))
    by (vm_compute; reflexivity).
  split; [exact H1|]. split; [exact H2|].
  exact (Format_stores_unsupported_format IsSupportedFormat "not-a-format"
           (attrOfType (Some stringType)) [] H1 H2).
Defined.

Lemma Enum_all_or_nothing_witness :
  AttrType (attrOfType (Some intType)) = Some intType /\
  Errors (Enum integersOnly (fun m => m) (fun l => l)
    [VInteger GInt 1; VString "two"; VInteger GInt 3]
    (mkState (EAttributeExpr (attrOfType (Some intType))) [])) =
    [ErrIncompatibleValue (VString "two") 1 "Int"] /\
  Current (Enum integersOnly (fun m => m) (fun l => l)
    [VInteger GInt 1; VString "two"; VInteger GInt 3]
    (mkState (EAttributeExpr (attrOfType (Some intType))) [])) =
    EAttributeExpr (attrOfType (Some intType)).
Proof.
  assert (Ht : AttrType (attrOfType (Some intType)) = Some intType) by reflexivity.
  destruct (Enum_all_or_nothing integersOnly (fun m => m) (fun l => l)
              (attrOfType (Some intType)) intType
              [VInteger GInt 1; VString "two"; VInteger GInt 3] [] Ht) as [HE HC].
  split; [exact Ht|]. split.
  - rewrite HE. reflexivity.
  - apply HC. reflexivity.
Defined.

Lemma Enum_stores_converted_values_witness :
  AttrType (attrOfType None) = None /\
  ValidationOf (Current (Enum integersOnly (fun m => m) (fun l => l)
    [VInteger GInt 1; VString "two"; VInteger GInt 3]
    (mkState (EAttributeExpr (attrOfType None)) []))) =
    Some (withValues emptyValidation [VInteger GInt 1; VString "two"; VInteger GInt 3]).
Proof.
  assert (Hn : AttrType (attrOfType None) = None) by reflexivity.
  destruct (Enum_stores_converted_values integersOnly (fun m => m) (fun l => l)
              (attrOfType None) [VInteger GInt 1; VString "two"; VInteger GInt 3] []
              (or_introl Hn)) as [HE _].
  split; [exact Hn|]. rewrite HE. reflexivity.
Defined.

Lemma Minimum_Maximum_normalize_witness :
  typeIsNilOr (attrOfType (Some intType)) isNumericKind /\
  Minimum (VString "42") (mkState (EAttributeExpr (attrOfType (Some intType))) []) =
    mkState (EAttributeExpr (SetValidation (attrOfType (Some intType))
      (withMinimum emptyValidation float64_42))) [] /\
  ParseFloat "1e400" = None /\
  Maximum (VString "1e400") (mkState (EAttributeExpr (attrOfType (Some intType))) []) =
    mkState (EAttributeExpr (attrOfType (Some intType))) [ErrInvalidNumber (VString "1e400")] /\
  special "+INF" = Some (S754_infinity false) /\
  Minimum (VString "+INF") (mkState (EAttributeExpr (attrOfType (Some intType))) []) =
    mkState (EAttributeExpr (SetValidation (attrOfType (Some intType))
      (withMinimum emptyValidation (S754_infinity false)))) [].
Proof.
  assert (Ht : typeIsNilOr (attrOfType (Some intType)) isNumericKind) by reflexivity.
  assert (Hr : ParseFloat "1e400" = None) by (vm_compute; reflexivity).
  assert (Hs : special "+INF" = Some (S754_infinity false)) by (vm_compute; reflexivity).
  destruct (Minimum_Maximum_normalize (attrOfType (Some intType)) [] Ht)
    as (_ & _ & H & _ & _ & _ & _ & _ & _ & Hbad & Hspec).
  split; [exact Ht|]. split; [exact H|]. split; [exact Hr|].
  split; [exact (proj2 (Hbad _ Hr))|]. split; [exact Hs|].
  exact (proj1 (Hspec _ _ Hs)).
Defined.

Lemma Meta_appends_in_call_order_witness :
  IsMetaTarget (EMethodExpr (mkMethod "m" None)) = true /\
  MetaValues (Current (Meta "k" ["y"] (Meta "k" ["x"] (mkState (EMethodExpr (mkMethod "m" None)) []))))
    "k" = ["x"; "y"].
Proof.
  assert (Ht : IsMetaTarget (Current (mkState (EMethodExpr (mkMethod "m" None)) [])) = true)
    by reflexivity.
  destruct (Meta_appends_in_call_order (mkState (EMethodExpr (mkMethod "m" None)) []) "k"
              ["x"] ["y"] Ht) as (_ & H & _).
  split; [exact Ht|]. apply H. reflexivity.
Defined.

Lemma constraints_unchecked_on_unknown_type_witness :
  AttrType (attrOfType None) = None /\
  MinLength 3 (mkState (EAttributeExpr (attrOfType None)) []) =
    mkState (EAttributeExpr (SetValidation (attrOfType None) (withMinLength emptyValidation 3))) [].
Proof.
  assert (Hn : AttrType (attrOfType None) = None) by reflexivity.
  destruct (constraints_unchecked_on_unknown_type integersOnly (fun m => m) (fun l => l)
              IsSupportedFormat bracketCompile (attrOfType None) [] [] "email" "x" VNil 3 []
              Hn) as (_ & _ & _ & _ & _ & H & _).
  split; [exact Hn|exact H].
Defined.

Lemma Pattern_stored_iff_compiles_witness :
  typeIsNilOr (attrOfType (Some stringType)) (fun k => bool_decide (k = StringKind)) /\
  Pattern bracketCompile "[a-z" (mkState (EAttributeExpr (attrOfType (Some stringType))) []) =
    mkState (EAttributeExpr (attrOfType (Some stringType)))
      [ErrInvalidPattern "[a-z" "missing closing ]"].
Proof.
  assert (Ht : typeIsNilOr (attrOfType (Some stringType)) (fun k => bool_decide (k = StringKind)))
    by (vm_compute; reflexivity).
  destruct (Pattern_stored_iff_compiles bracketCompile "[a-z" (attrOfType (Some stringType)) [] Ht)
    as [H _].
  split; [exact Ht|]. apply H. reflexivity.
Defined.

Lemma Required_accumulates_without_dedup_witness :
  AttrOf (EAttributeExpr (attrOfType (Some objectType))) = Some (attrOfType (Some objectType)) /\
  typeIsNilOr (attrOfType (Some objectType)) (fun k => bool_decide (k = ObjectKind)) /\
  RequiredOf (Current (Required ["b"; "a"] (Required ["a"]
    (mkState (EAttributeExpr (attrOfType (Some objectType))) [])))) = ["a"; "b"; "a"] /\
  AttrOf (EResultTypeExpr (mkResultType "application/vnd.user" (attrOfType (Some objectType)))) =
    Some (attrOfType (Some objectType)) /\
  RequiredOf (Current (Required ["b"; "a"] (Required ["a"]
    (mkState (EResultTypeExpr (mkResultType "application/vnd.user" (attrOfType (Some objectType)))) [])))) =
    ["a"; "b"; "a"] /\
  AttrOf (EResultTypeExpr (mkResultType "application/vnd.user" (attrOfType (Some intType)))) =
    Some (attrOfType (Some intType)) /\
  AttrType (attrOfType (Some intType)) = Some intType /\ Kind_of intType <> ObjectKind /\
  Required ["a"] (mkState (EResultTypeExpr (mkResultType "application/vnd.user" (attrOfType (Some intType)))) []) =
    mkState (EResultTypeExpr (mkResultType "application/vnd.user" (attrOfType (Some intType))))
      [incompatibleAttributeType "required" "Int" "an object"].
Proof.
  assert (Ha : AttrOf (EAttributeExpr (attrOfType (Some objectType))) = Some (attrOfType (Some objectType)))
    by reflexivity.
  assert (Hr : AttrOf (EResultTypeExpr (mkResultType "application/vnd.user" (attrOfType (Some objectType)))) =
                 Some (attrOfType (Some objectType))) by reflexivity.
  assert (Hri : AttrOf (EResultTypeExpr (mkResultType "application/vnd.user" (attrOfType (Some intType)))) =
                  Some (attrOfType (Some intType))) by reflexivity.
  assert (Ho : typeIsNilOr (attrOfType (Some objectType)) (fun k => bool_decide (k = ObjectKind)))
    by (vm_compute; reflexivity).
  assert (Hi : AttrType (attrOfType (Some intType)) = Some intType) by reflexivity.
  assert (Hk : Kind_of intType <> ObjectKind) by discriminate.
  destruct (Required_accumulates_without_dedup _ _ [] Ha) as [P1 _].
  destruct (P1 Ho) as (_ & _ & _ & Hab & _).
  destruct (Required_accumulates_without_dedup _ _ [] Hr) as [Q1 _].
  destruct (Q1 Ho) as (_ & _ & _ & Hrab & _).
  destruct (Required_accumulates_without_dedup _ _ [] Hri) as [_ P2].
  split; [exact Ha|]. split; [exact Ho|]. split; [apply Hab; reflexivity|].
  split; [exact Hr|]. split; [apply Hrab; reflexivity|].
  split; [exact Hri|]. split; [exact Hi|]. split; [exact Hk|].
  exact (P2 intType ["a"] Hi Hk).
Defined.

Lemma Minimum_Maximum_reject_non_numbers_witness :
  typeIsNilOr (attrOfType None) isNumericKind /\
  Maximum (VBool true) (mkState (EAttributeExpr (attrOfType None)) []) =
    mkState (EAttributeExpr (attrOfType None)) [ErrInvalidNumber (VBool true)].
Proof.
  assert (Ht : typeIsNilOr (attrOfType None) isNumericKind) by exact I.
  destruct (Minimum_Maximum_reject_non_numbers (VBool true) (attrOfType None) [] Ht
              ltac:(discriminate) ltac:(discriminate) ltac:(discriminate)
              ltac:(intros k z Hz; discriminate Hz)) as [_ H].
  split; [exact Ht|exact H].
Defined.

(* ------------------------------------------------------------------ *)
(** ** Further properties of the DSL functions *)

(** [Meta K V] never changes the values of another key, nor the type and
    validations of the attribute it annotates; on a definition it does
    not accept it reports [IncompatibleDSL] and changes nothing else. *)
Theorem Meta_preserves_other_keys (s : EvalState) (K K' : string) (V : list string) :
  K' <> K ->
  MetaValues (Current (Meta K V s)) K' = MetaValues (Current s) K' /\
  option_map Validation (AnnotatedAttr (Current (Meta K V s))) =
    option_map Validation (AnnotatedAttr (Current s)) /\
  option_map AttrType (AnnotatedAttr (Current (Meta K V s))) =
    option_map AttrType (AnnotatedAttr (Current s)) /\
  (IsMetaTarget (Current s) = false -> Meta K V s = ReportError s ErrIncompatibleDSL).
Proof.
  intros Hne. destruct s as [e errs].
  destruct e as [[? [? ? meta]]|[? ? meta]|[? [? ? meta]]|[? meta]|[? meta]|[? meta]|?];
    simpl; (split; [|split; [reflexivity|split; [reflexivity|intros; try discriminate; reflexivity]]]);
    unfold MetaValues, appendMeta; simpl; try reflexivity;
    rewrite lookup_insert_ne by congruence; destruct meta; reflexivity.
Qed.

(** [Meta K] with no value still creates the key [K] in the metadata
    record (with the values it already had, none for a new key): a key
    can be set as a flag, as the doc comment does with
    [Meta("struct:error:name")]. *)
Theorem Meta_registers_key_without_values (s : EvalState) (K : string) :
  IsMetaTarget (Current s) = true ->
  exists m, CurrentMeta (Current (Meta K [] s)) = Some m /\
            m !! K = Some (MetaValues (Current s) K).
Proof.
  destruct s as [e errs].
  destruct e as [[? [? ? meta]]|[? ? meta]|[? [? ? meta]]|[? meta]|[? meta]|[? meta]|?];
    simpl; intros H; try discriminate;
    (eexists; split; [reflexivity|]);
    unfold MetaValues, appendMeta; simpl; rewrite lookup_insert_eq, app_nil_r;
    destruct meta; reflexivity.
Qed.

(** [Enum []] on an attribute of any type, known or not, stores an empty
    enumeration: a previous [Enum] is cleared, the other validations are
    kept and nothing is reported. *)
Theorem Enum_empty_clears_values IsCompatible ToMap ToSlice (a : AttributeExpr) (errs : list Error) :
  Enum IsCompatible ToMap ToSlice [] (mkState (EAttributeExpr a) errs) =
  mkState (EAttributeExpr (SetValidation a (withValues (ensureValidation a) []))) errs.
Proof.
  unfold Enum; simpl. destruct (AttrType a); reflexivity.
Qed.

(** [Format f] with an unsupported [f] on an attribute of a known
    non-string type reports two errors, the invalid format first and the
    type mismatch second, and stores nothing. *)
Theorem Format_unsupported_on_non_string_reports_twice IsSupportedValidationFormat
  (f : string) (a : AttributeExpr) (t : DataType) (errs : list Error) :
  IsSupportedValidationFormat f = false ->
  AttrType a = Some t -> Kind_of t <> StringKind ->
  Format IsSupportedValidationFormat f (mkState (EAttributeExpr a) errs) =
  mkState (EAttributeExpr a)
    (errs ++ [ErrInvalidFormat f; incompatibleAttributeType "format" (Name t) "a string"]).
Proof.
  intros Hf Ht Hk. unfold Format; simpl. rewrite Hf, Ht, bool_decide_true by exact Hk.
  unfold ReportError; simpl. rewrite <- app_assoc. reflexivity.
Qed.

(** On an attribute whose known type has the wrong kind, [Pattern],
    [Minimum], [Maximum], [MinLength], [MaxLength] and [Required] report
    the type mismatch and nothing else, whatever their argument: the
    pattern is not compiled and the number is not converted. *)
Theorem type_check_precedes_value_check regexpCompile (a : AttributeExpr) (t : DataType)
  (errs : list Error) :
  AttrType a = Some t ->
  let s := mkState (EAttributeExpr a) errs in
  (Kind_of t <> StringKind -> forall p,
     Pattern regexpCompile p s = ReportError s (incompatibleAttributeType "pattern" (Name t) "a string")) /\
  (isNumericKind (Kind_of t) = false -> forall v,
     Minimum v s = ReportError s (incompatibleAttributeType "minimum" (Name t) "an integer or a number") /\
     Maximum v s = ReportError s (incompatibleAttributeType "maximum" (Name t) "an integer or a number")) /\
  (isLengthKind (Kind_of t) = false -> forall n,
     MinLength n s = ReportError s (incompatibleAttributeType "minimum length" (Name t) "a string or an array") /\
     MaxLength n s = ReportError s (incompatibleAttributeType "maximum length" (Name t) "a string or an array")) /\
  (Kind_of t <> ObjectKind -> forall names,
     Required names s = ReportError s (incompatibleAttributeType "required" (Name t) "an object")).
Proof.
  intros Ht s. subst s.
  split; [|split; [|split]].
  - intros Hk p. unfold Pattern; simpl. rewrite Ht, bool_decide_true by exact Hk. reflexivity.
  - intros Hk v. unfold Minimum, Maximum; simpl. rewrite Ht, Hk. split; reflexivity.
  - intros Hk n. unfold MinLength, MaxLength; simpl. rewrite Ht, Hk. split; reflexivity.
  - intros Hk names. unfold Required, requiredOn; simpl. rewrite Ht, bool_decide_true by exact Hk.
    reflexivity.
Qed.

(** [Required] on a result type acts on its embedded attribute exactly as
    on that attribute alone: same errors, and the updated attribute is put
    back under the same identifier. *)
Theorem Required_result_type_as_attribute (rt : ResultTypeExpr) (names : list string)
  (errs : list Error) :
  let s_attr := Required names (mkState (EAttributeExpr (RTAttribute rt)) errs) in
  let s_rt := Required names (mkState (EResultTypeExpr rt) errs) in
  Errors s_rt = Errors s_attr /\
  Current s_rt = match Current s_attr with
                 | EAttributeExpr a' => EResultTypeExpr (mkResultType (Identifier rt) a')
                 | e => e
                 end.
Proof.
  simpl. unfold Required, requiredOn; simpl.
  destruct rt as [id [[t|] v m]]; simpl.
  - destruct (bool_decide (Kind_of t <> ObjectKind)); simpl; split; reflexivity.
  - split; reflexivity.
Qed.

(** The check loop of [Enum] keeps the current definition and appends at
    most one error per value. *)
Lemma enumCheck_appends IsCompatible (t : option DataType) (vals : list Value) :
  forall i ok s, Current (snd (enumCheck IsCompatible t i vals ok s)) = Current s /\
                 appendsAtMost (length vals) s (snd (enumCheck IsCompatible t i vals ok s)).
Proof.
  induction vals as [|v vs IH]; intros i ok s; simpl.
  - split; [reflexivity|]. exists []. rewrite app_nil_r. split; [reflexivity|simpl; lia].
  - destruct t as [ty|].
    + destruct (negb (IsCompatible ty v)).
      * destruct (IH (S i) false (ReportError s (ErrIncompatibleValue v i (Name ty))))
          as [Hc [l [He Hl]]].
        split; [exact Hc|]. exists (ErrIncompatibleValue v i (Name ty) :: l).
        rewrite He. unfold ReportError; simpl. rewrite <- app_assoc. split; [reflexivity|simpl; lia].
      * destruct (IH (S i) ok s) as [Hc [l [He Hl]]].
        split; [exact Hc|]. exists l. split; [exact He|lia].
    + destruct (IH (S i) ok s) as [Hc [l [He Hl]]].
      split; [exact Hc|]. exists l. split; [exact He|lia].
Qed.

Lemma appendsAtMost_refl n s : appendsAtMost n s s.
Proof. exists []. rewrite app_nil_r. split; [reflexivity|simpl; lia]. Qed.

Lemma appendsAtMost_set n s e : appendsAtMost n s (SetCurrent s e).
Proof. exists []. rewrite app_nil_r. split; [reflexivity|simpl; lia]. Qed.

Lemma appendsAtMost_report n s e : (1 <= n)%nat -> appendsAtMost n s (ReportError s e).
Proof. intros H. exists [e]. split; [reflexivity|simpl; lia]. Qed.

Create HintDb appends.
#[local] Hint Resolve appendsAtMost_refl appendsAtMost_set appendsAtMost_report : appends.

(** The DSL functions only ever append to the error log, never remove or
    rewrite a reported error: at most one error for [Pattern], [Minimum],
    [Maximum], [MinLength], [MaxLength], [Required] and [Meta], at most
    two for [Format], and at most one per value for [Enum]. *)
Theorem error_log_only_grows IsCompatible ToMap ToSlice IsSupportedValidationFormat regexpCompile
  (s : EvalState) :
  (forall vals, appendsAtMost (length vals) s (Enum IsCompatible ToMap ToSlice vals s)) /\
  (forall f, appendsAtMost 2 s (Format IsSupportedValidationFormat f s)) /\
  (forall p, appendsAtMost 1 s (Pattern regexpCompile p s)) /\
  (forall v, appendsAtMost 1 s (Minimum v s)) /\
  (forall v, appendsAtMost 1 s (Maximum v s)) /\
  (forall n, appendsAtMost 1 s (MinLength n s)) /\
  (forall n, appendsAtMost 1 s (MaxLength n s)) /\
  (forall names, appendsAtMost 1 s (Required names s)) /\
  (forall K V, appendsAtMost 1 s (Meta K V s)).
Proof.
  destruct s as [e errs].
  split; [|split; [|split; [|split; [|split; [|split; [|split; [|split]]]]]]].
  - intros vals. unfold Enum; simpl. destruct e; try apply appendsAtMost_refl.
    pose proof (enumCheck_appends IsCompatible (AttrType a) vals 0 true (mkState (EAttributeExpr a) errs))
      as [_ [l [He Hl]]].
    destruct (enumCheck IsCompatible (AttrType a) 0 vals true _) as [ok s'].
    simpl in He. destruct ok; exists l; split; try exact Hl; exact He.
  - intros f. unfold Format; simpl. destruct e; try apply appendsAtMost_refl.
    destruct (IsSupportedValidationFormat f).
    + destruct (AttrType a); [destruct (bool_decide _)|]; auto with appends.
    + destruct (AttrType a); [destruct (bool_decide _)|].
      * exists [ErrInvalidFormat f; incompatibleAttributeType "format" (Name d) "a string"].
        unfold ReportError; simpl. rewrite <- app_assoc. split; [reflexivity|simpl; lia].
      * exists [ErrInvalidFormat f]. split; [reflexivity|simpl; lia].
      * exists [ErrInvalidFormat f]. split; [reflexivity|simpl; lia].
  - intros p. unfold Pattern; simpl. destruct e; try apply appendsAtMost_refl.
    destruct (AttrType a); [destruct (bool_decide _)|];
      try destruct (regexpCompile p); auto with appends.
  - intros v. unfold Minimum; simpl. destruct e; try apply appendsAtMost_refl.
    destruct (AttrType a); [destruct (negb _)|];
      try destruct (numberValue v); auto with appends.
  - intros v. unfold Maximum; simpl. destruct e; try apply appendsAtMost_refl.
    destruct (AttrType a); [destruct (negb _)|];
      try destruct (numberValue v); auto with appends.
  - intros n. unfold MinLength; simpl. destruct e; try apply appendsAtMost_refl.
    destruct (AttrType a); [destruct (negb _)|]; auto with appends.
  - intros n. unfold MaxLength; simpl. destruct e; try apply appendsAtMost_refl.
    destruct (AttrType a); [destruct (negb _)|]; auto with appends.
  - intros names. unfold Required, requiredOn; simpl.
    destruct e as [c|a|rt|m|sv|api|n]; simpl;
      try destruct (AttrType a); try destruct (AttrType (RTAttribute rt));
      try destruct (bool_decide _);
      solve [apply appendsAtMost_set | apply appendsAtMost_report; lia].
  - intros K V. unfold Meta; simpl.
    destruct e; solve [apply appendsAtMost_set | apply appendsAtMost_report; lia].
Qed.

(** The validation functions never touch metadata: the metadata record of
    the current definition is the same after [Enum], [Format], [Pattern],
    [Minimum], [Maximum], [MinLength], [MaxLength] and [Required]. *)
Theorem constraints_preserve_meta IsCompatible ToMap ToSlice IsSupportedValidationFormat regexpCompile
  (s : EvalState) :
  (forall vals, CurrentMeta (Current (Enum IsCompatible ToMap ToSlice vals s)) = CurrentMeta (Current s)) /\
  (forall f, CurrentMeta (Current (Format IsSupportedValidationFormat f s)) = CurrentMeta (Current s)) /\
  (forall p, CurrentMeta (Current (Pattern regexpCompile p s)) = CurrentMeta (Current s)) /\
  (forall v, CurrentMeta (Current (Minimum v s)) = CurrentMeta (Current s)) /\
  (forall v, CurrentMeta (Current (Maximum v s)) = CurrentMeta (Current s)) /\
  (forall n, CurrentMeta (Current (MinLength n s)) = CurrentMeta (Current s)) /\
  (forall n, CurrentMeta (Current (MaxLength n s)) = CurrentMeta (Current s)) /\
  (forall names, CurrentMeta (Current (Required names s)) = CurrentMeta (Current s)).
Proof.
  destruct s as [e errs].
  split; [|split; [|split; [|split; [|split; [|split; [|split]]]]]].
  - intros vals. unfold Enum; simpl. destruct e; try reflexivity.
    pose proof (enumCheck_appends IsCompatible (AttrType a) vals 0 true (mkState (EAttributeExpr a) errs))
      as [Hc _].
    destruct (enumCheck IsCompatible (AttrType a) 0 vals true _) as [ok s'].
    simpl in Hc. destruct ok; simpl; [reflexivity|rewrite Hc; reflexivity].
  - intros f. unfold Format; simpl. destruct e; try reflexivity.
    destruct (IsSupportedValidationFormat f), (AttrType a); try destruct (bool_decide _); reflexivity.
  - intros p. unfold Pattern; simpl. destruct e; try reflexivity.
    destruct (AttrType a); try destruct (bool_decide _); try destruct (regexpCompile p); reflexivity.
  - intros v. unfold Minimum; simpl. destruct e; try reflexivity.
    destruct (AttrType a); try destruct (negb _); try destruct (numberValue v); reflexivity.
  - intros v. unfold Maximum; simpl. destruct e; try reflexivity.
    destruct (AttrType a); try destruct (negb _); try destruct (numberValue v); reflexivity.
  - intros n. unfold MinLength; simpl. destruct e; try reflexivity.
    destruct (AttrType a); try destruct (negb _); reflexivity.
  - intros n. unfold MaxLength; simpl. destruct e; try reflexivity.
    destruct (AttrType a); try destruct (negb _); reflexivity.
  - intros names. unfold Required, requiredOn; simpl. destruct e; try reflexivity;
      [destruct (AttrType a) | destruct (AttrType (RTAttribute rt))];
      try destruct (bool_decide _); reflexivity.
Qed.

(** Overwriting a field of the validation twice is overwriting it once. *)
Lemma with_overwrite (v : ValidationExpr) :
  (forall x y, withValues (withValues v x) y = withValues v y) /\
  (forall x y, withFormat (withFormat v x) y = withFormat v y) /\
  (forall x y, withPattern (withPattern v x) y = withPattern v y) /\
  (forall x y, withMinimum (withMinimum v x) y = withMinimum v y) /\
  (forall x y, withMaximum (withMaximum v x) y = withMaximum v y) /\
  (forall x y, withMinLength (withMinLength v x) y = withMinLength v y) /\
  (forall x y, withMaxLength (withMaxLength v x) y = withMaxLength v y).
Proof. destruct v; repeat split; reflexivity. Qed.

Lemma SetValidation_twice (a : AttributeExpr) (v w : ValidationExpr) :
  SetValidation (SetValidation a v) w = SetValidation a w /\
  ensureValidation (SetValidation a v) = v /\
  AttrType (SetValidation a v) = AttrType a.
Proof. destruct a; repeat split; reflexivity. Qed.

(** [Enum] on an attribute whose type is unknown or accepts every value
    stores the converted values and reports nothing. *)
Lemma Enum_accepted_step IsCompatible ToMap ToSlice (a : AttributeExpr) (vals : list Value)
  (errs : list Error) :
  (forall t, AttrType a = Some t -> forallb (IsCompatible t) vals = true) ->
  Enum IsCompatible ToMap ToSlice vals (mkState (EAttributeExpr a) errs) =
  mkState (EAttributeExpr (SetValidation a
    (withValues (ensureValidation a) (map (enumValue ToMap ToSlice) vals)))) errs.
Proof.
  intros Hc. unfold Enum; simpl. destruct (AttrType a) as [t|] eqn:Ht.
  - rewrite enumCheck_known; simpl. specialize (Hc t eq_refl). rewrite Hc.
    rewrite (enumCheck_compatible_silent IsCompatible t vals
               (fun j v => ErrIncompatibleValue v j (Name t)) Hc), app_nil_r.
    reflexivity.
  - rewrite enumCheck_unknown. reflexivity.
Qed.

(** A second [MinLength] (resp. [MaxLength]) replaces the first on an
    attribute of a length-checked or unknown type: the first call leaves
    no trace. *)
Theorem MinLength_MaxLength_last_call_wins (a : AttributeExpr) (errs : list Error) (n1 n2 : Z) :
  typeIsNilOr a isLengthKind ->
  let s := mkState (EAttributeExpr a) errs in
  MinLength n2 (MinLength n1 s) = MinLength n2 s /\
  MaxLength n2 (MaxLength n1 s) = MaxLength n2 s.
Proof.
  intros Hk; cbv zeta; unfold typeIsNilOr in Hk.
  unfold MinLength, MaxLength; simpl.
  destruct (SetValidation_twice a (withMinLength (ensureValidation a) n1)
              (withMinLength (withMinLength (ensureValidation a) n1) n2)) as [Hs1 [He1 Ht1]].
  destruct (SetValidation_twice a (withMaxLength (ensureValidation a) n1)
              (withMaxLength (withMaxLength (ensureValidation a) n1) n2)) as [Hs2 [He2 Ht2]].
  destruct (with_overwrite (ensureValidation a)) as [_ [_ [_ [_ [_ [Hmin Hmax]]]]]].
  destruct (AttrType a) as [t|] eqn:Ht; [rewrite Hk|clear Hk]; simpl;
    rewrite ?Ht1, ?Ht2, ?Ht, ?Hk, ?He1, ?He2; simpl;
    rewrite ?Hs1, ?Hs2, ?Hmin, ?Hmax; split; reflexivity.
Qed.

(** A second valid [Minimum] (resp. [Maximum]) replaces the first on an
    attribute of a numeric or unknown type. *)
Theorem Minimum_Maximum_last_call_wins (a : AttributeExpr) (errs : list Error)
  (v1 v2 : Value) (x1 x2 : spec_float) :
  typeIsNilOr a isNumericKind -> numberValue v1 = Some x1 -> numberValue v2 = Some x2 ->
  let s := mkState (EAttributeExpr a) errs in
  Minimum v2 (Minimum v1 s) = Minimum v2 s /\
  Maximum v2 (Maximum v1 s) = Maximum v2 s.
Proof.
  intros Hk H1 H2; cbv zeta; unfold typeIsNilOr in Hk.
  unfold Minimum, Maximum; simpl. rewrite H1, H2.
  destruct (SetValidation_twice a (withMinimum (ensureValidation a) x1)
              (withMinimum (withMinimum (ensureValidation a) x1) x2)) as [Hs1 [He1 Ht1]].
  destruct (SetValidation_twice a (withMaximum (ensureValidation a) x1)
              (withMaximum (withMaximum (ensureValidation a) x1) x2)) as [Hs2 [He2 Ht2]].
  destruct (with_overwrite (ensureValidation a)) as [_ [_ [_ [Hmin [Hmax _]]]]].
  destruct (AttrType a) as [t|] eqn:Ht; [rewrite Hk|clear Hk]; simpl;
    rewrite ?Ht1, ?Ht2, ?Ht, ?Hk, ?He1, ?He2; simpl;
    rewrite ?Hs1, ?Hs2, ?Hmin, ?Hmax; split; reflexivity.
Qed.

(** A second [Pattern] whose expression compiles replaces a first one
    that compiled, on an attribute of string or unknown type. *)
Theorem Pattern_last_call_wins regexpCompile (a : AttributeExpr) (errs : list Error) (p1 p2 : string) :
  typeIsNilOr a (fun k => bool_decide (k = StringKind)) ->
  regexpCompile p1 = None -> regexpCompile p2 = None ->
  let s := mkState (EAttributeExpr a) errs in
  Pattern regexpCompile p2 (Pattern regexpCompile p1 s) = Pattern regexpCompile p2 s.
Proof.
  intros Hk H1 H2; cbv zeta; unfold typeIsNilOr in Hk.
  unfold Pattern; simpl. rewrite H1, H2.
  destruct (SetValidation_twice a (withPattern (ensureValidation a) p1)
              (withPattern (withPattern (ensureValidation a) p1) p2)) as [Hs [He Ht']].
  destruct (with_overwrite (ensureValidation a)) as [_ [_ [Hp _]]].
  destruct (AttrType a) as [t|] eqn:Ht.
  - apply bool_decide_eq_true in Hk.
    assert (Hb : bool_decide (Kind_of t <> StringKind) = false)
      by (apply bool_decide_eq_false; tauto).
    rewrite Hb; simpl. rewrite ?Ht', ?Ht, ?Hb, ?He, ?Hs, ?Hp. reflexivity.
  - simpl. rewrite ?Ht', ?Ht, ?He, ?Hs, ?Hp. reflexivity.
Qed.

(** On an attribute of string or unknown type, a [Format] call with a
    supported format is entirely overridden by a later [Format] call,
    whatever that later format is: the later format is stored, and only the
    later call's error, if any, is reported. *)
Theorem Format_last_call_wins IsSupportedValidationFormat (a : AttributeExpr) (errs : list Error)
  (f1 f2 : string) :
  typeIsNilOr a (fun k => bool_decide (k = StringKind)) ->
  IsSupportedValidationFormat f1 = true ->
  let s := mkState (EAttributeExpr a) errs in
  Format IsSupportedValidationFormat f2 (Format IsSupportedValidationFormat f1 s) =
  Format IsSupportedValidationFormat f2 s.
Proof.
  intros Hk H1; cbv zeta; unfold typeIsNilOr in Hk.
  unfold Format; simpl. rewrite H1.
  destruct (SetValidation_twice a (withFormat (ensureValidation a) f1)
              (withFormat (withFormat (ensureValidation a) f1) f2)) as [Hs [He Ht']].
  destruct (with_overwrite (ensureValidation a)) as [_ [Hf _]].
  destruct (AttrType a) as [t|] eqn:Ht.
  - apply bool_decide_eq_true in Hk.
    assert (Hb : bool_decide (Kind_of t <> StringKind) = false)
      by (apply bool_decide_eq_false; tauto).
    rewrite Hb; simpl. rewrite ?Ht', ?Ht, ?Hb, ?He, ?Hs, ?Hf.
    destruct (IsSupportedValidationFormat f2); reflexivity.
  - simpl. rewrite ?Ht', ?Ht, ?He, ?Hs, ?Hf.
    destruct (IsSupportedValidationFormat f2); reflexivity.
Qed.

(** Two accepted [Enum] calls: the second list replaces the first; the
    values are not merged. *)
Theorem Enum_last_call_wins IsCompatible ToMap ToSlice (a : AttributeExpr) (errs : list Error)
  (vals1 vals2 : list Value) :
  (forall t, AttrType a = Some t -> forallb (IsCompatible t) vals1 = true) ->
  (forall t, AttrType a = Some t -> forallb (IsCompatible t) vals2 = true) ->
  let s := mkState (EAttributeExpr a) errs in
  Enum IsCompatible ToMap ToSlice vals2 (Enum IsCompatible ToMap ToSlice vals1 s) =
  Enum IsCompatible ToMap ToSlice vals2 s.
Proof.
  intros H1 H2; cbv zeta.
  destruct (SetValidation_twice a (withValues (ensureValidation a) (map (enumValue ToMap ToSlice) vals1))
              (withValues (withValues (ensureValidation a) (map (enumValue ToMap ToSlice) vals1))
                 (map (enumValue ToMap ToSlice) vals2))) as [Hs [He Ht']].
  destruct (with_overwrite (ensureValidation a)) as [Hv _].
  rewrite (Enum_accepted_step _ _ _ a vals1 errs H1).
  rewrite (Enum_accepted_step _ _ _ a vals2 errs H2).
  rewrite Enum_accepted_step by (rewrite Ht'; exact H2).
  rewrite He, Hs, Hv. reflexivity.
Qed.


(** The mantissa loop reads a string of digits to its end, as its
    decimal value. *)
Lemma readMantissa_digits (s : string) :
  forall m frac sd, allDigits s = true ->
  readMantissa s m false frac sd = (decimalValue s m, frac, sd || negb (String.eqb s ""), EmptyString).
Proof.
  induction s as [|c r IH]; intros m frac sd H; simpl in *.
  - rewrite orb_false_r. reflexivity.
  - apply andb_prop in H as [Hc Hr]. apply bool_decide_eq_true in Hc.
    destruct (digitVal c) as [d|] eqn:Hd; [|destruct Hc as [? Hc]; discriminate].
    destruct (ascii_dec c ".") as [->|_]; [discriminate|].
    rewrite IH by exact Hr. rewrite orb_true_r. reflexivity.
Qed.

(** A string starting with a digit has no sign and is no special value. *)
Lemma digit_head (c : ascii) (r : string) :
  digitVal c <> None ->
  special (String c r) = None /\
  (match String c r with
   | String "+" r' => (false, r')
   | String "-" r' => (true, r')
   | _ => (false, String c r)
   end) = (false, String c r).
Proof.
  intros H. destruct c as [b0 b1 b2 b3 b4 b5 b6 b7].
  destruct b0, b1, b2, b3, b4, b5, b6, b7;
    try (exfalso; apply H; reflexivity); split; reflexivity.
Qed.

Lemma ParseFloat_digits_eq (s : string) :
  s <> EmptyString -> allDigits s = true ->
  ParseFloat s = (if isInfinite (float64_of_Z (decimalValue s 0)) then None
                  else Some (float64_of_Z (decimalValue s 0))).
Proof.
  intros Hne Hd. destruct s as [|c r]; [congruence|].
  assert (Hc : digitVal c <> None).
  { simpl in Hd. apply andb_prop in Hd as [Hc _]. apply bool_decide_eq_true in Hc.
    destruct Hc as [x Hx]. congruence. }
  destruct (digit_head c r Hc) as [Hs Hsign].
  unfold ParseFloat. rewrite Hs. unfold readFloat. rewrite Hsign.
  rewrite readMantissa_digits by exact Hd.
  remember (decimalValue (String c r) 0) as z eqn:Hz. clear Hz. simpl.
  unfold float64_of_decimal. rewrite Z.mul_1_r.
  destruct (Z.eqb_spec z 0) as [H0|H0].
  - subst z. reflexivity.
  - simpl. unfold float64_of_Z. destruct (binary_normalize prec64 emax64 z 0 false); reflexivity.
Qed.

(** [strconv.ParseFloat] on a non-empty string of decimal digits returns
    the integer the digits denote, converted to [float64] as Go converts
    an integer; it fails (range error) exactly when that conversion
    overflows to infinity. *)
Theorem ParseFloat_decimal_digits (s : string) :
  s <> EmptyString -> allDigits s = true ->
  ParseFloat s = (if isInfinite (float64_of_Z (decimalValue s 0)) then None
                  else Some (float64_of_Z (decimalValue s 0))).
Proof.
  intros Hne Hd. destruct s as [|c r]; [congruence|].
  assert (Hc : digitVal c <> None).
  { simpl in Hd. apply andb_prop in Hd as [Hc _]. apply bool_decide_eq_true in Hc.
    destruct Hc as [x Hx]. congruence. }
  destruct (digit_head c r Hc) as [Hs Hsign].
  unfold ParseFloat. rewrite Hs. unfold readFloat. rewrite Hsign.
  rewrite readMantissa_digits by exact Hd.
  remember (decimalValue (String c r) 0) as z eqn:Hz. clear Hz. simpl.
  unfold float64_of_decimal. rewrite Z.mul_1_r.
  destruct (Z.eqb_spec z 0) as [H0|H0].
  - subst z. reflexivity.
  - simpl. unfold float64_of_Z. destruct (binary_normalize prec64 emax64 z 0 false); reflexivity.
Qed.

(** A bound given as a string of decimal digits is stored exactly as the
    integer it denotes would be, given as any Go integer type the type
    switch handles ([uint] and [uintptr] are not handled), unless the
    digits overflow [float64]. *)
Theorem Minimum_Maximum_digit_string_as_integer (s : string) (k : GoInt) (st : EvalState) :
  s <> EmptyString -> allDigits s = true ->
  isInfinite (float64_of_Z (decimalValue s 0)) = false ->
  k <> GUint -> k <> GUintptr ->
  Minimum (VString s) st = Minimum (VInteger k (decimalValue s 0)) st /\
  Maximum (VString s) st = Maximum (VInteger k (decimalValue s 0)) st.
Proof.
  intros Hne Hd Hinf Hk1 Hk2.
  assert (Hs : numberValue (VString s) = Some (float64_of_Z (decimalValue s 0))).
  { simpl. rewrite ParseFloat_digits_eq, Hinf by assumption. reflexivity. }
  assert (Hi : numberValue (VInteger k (decimalValue s 0)) = Some (float64_of_Z (decimalValue s 0))).
  { destruct k; simpl; congruence. }
  unfold Minimum, Maximum. rewrite Hs, Hi. split; reflexivity.
Qed.

(* ------------------------------------------------------------------ *)
(** ** Instances of the further properties *)

Lemma Meta_preserves_other_keys_witness :
  ("b" <> "a")%string /\
  MetaValues (Current (Meta "a" ["x"] (mkState (ECompositeExpr
    (mkComposite "Payload" (mkAttribute (Some objectType) (Some emptyValidation) None))) []))) "b" = [] /\
  option_map Validation (AnnotatedAttr (Current (Meta "a" ["x"] (mkState (ECompositeExpr
    (mkComposite "Payload" (mkAttribute (Some objectType) (Some emptyValidation) None))) [])))) =
  Some (Some emptyValidation).
Proof.
  assert (H : ("b" <> "a")%string) by discriminate.
  destruct (Meta_preserves_other_keys (mkState (ECompositeExpr
    (mkComposite "Payload" (mkAttribute (Some objectType) (Some emptyValidation) None))) [])
    "a" "b" ["x"] H) as (H1 & H2 & _).
  split; [exact H|]. split; [exact H1|exact H2].
Defined.

Lemma Meta_registers_key_without_values_witness :
  IsMetaTarget (EMethodExpr (mkMethod "show" None)) = true /\
  exists m, CurrentMeta (Current (Meta "struct:error:name" [] (mkState (EMethodExpr (mkMethod "show" None)) [])))
              = Some m /\ m !! "struct:error:name" = Some [].
Proof.
  assert (H : IsMetaTarget (EMethodExpr (mkMethod "show" None)) = true) by reflexivity.
  split; [exact H|].
  exact (Meta_registers_key_without_values (mkState (EMethodExpr (mkMethod "show" None)) [])
           "struct:error:name" H).
Defined.

Lemma Format_unsupported_on_non_string_reports_twice_witness :
  IsSupportedFormat "not-a-format" = false /\ AttrType (attrOfType (Some intType)) = Some intType /\
  Kind_of intType <> StringKind /\
  Format IsSupportedFormat "not-a-format" (mkState (EAttributeExpr (attrOfType (Some intType))) []) =
  mkState (EAttributeExpr (attrOfType (Some intType)))
    [ErrInvalidFormat "not-a-format"; incompatibleAttributeType "format" "Int" "a string"].
Proof.
  assert (H1 : IsSupportedFormat "not-a-format" = false) by (vm_compute; reflexivity).
  assert (H2 : AttrType (attrOfType (Some intType)) = Some intType) by reflexivity.
  assert (H3 : Kind_of intType <> StringKind) by discriminate.
  split; [exact H1|]. split; [exact H2|]. split; [exact H3|].
  exact (Format_unsupported_on_non_string_reports_twice IsSupportedFormat "not-a-format"
           (attrOfType (Some intType)) intType [] H1 H2 H3).
Defined.

Lemma type_check_precedes_value_check_witness :
  AttrType (attrOfType (Some objectType)) = Some objectType /\
  Pattern bracketCompile "[a-z" (mkState (EAttributeExpr (attrOfType (Some objectType))) []) =
  mkState (EAttributeExpr (attrOfType (Some objectType)))
    [incompatibleAttributeType "pattern" "Object" "a string"].
Proof.
  assert (H : AttrType (attrOfType (Some objectType)) = Some objectType) by reflexivity.
  split; [exact H|].
  destruct (type_check_precedes_value_check bracketCompile (attrOfType (Some objectType)) objectType [] H)
    as [Hp _].
  exact (Hp ltac:(discriminate) "[a-z").
Defined.

Lemma MinLength_MaxLength_last_call_wins_witness :
  typeIsNilOr (attrOfType (Some stringType)) isLengthKind /\
  MinLength 5 (MinLength 1 (mkState (EAttributeExpr (attrOfType (Some stringType))) [])) =
  mkState (EAttributeExpr (SetValidation (attrOfType (Some stringType)) (withMinLength emptyValidation 5))) [].
Proof.
  assert (H : typeIsNilOr (attrOfType (Some stringType)) isLengthKind) by reflexivity.
  split; [exact H|].
  exact (proj1 (MinLength_MaxLength_last_call_wins (attrOfType (Some stringType)) [] 1 5 H)).
Defined.

Lemma Minimum_Maximum_last_call_wins_witness :
  typeIsNilOr (attrOfType (Some intType)) isNumericKind /\
  numberValue (VInteger GInt 1) = Some (float64_of_Z 1) /\
  numberValue (VFloat64 float64_42) = Some float64_42 /\
  Minimum (VFloat64 float64_42) (Minimum (VInteger GInt 1) (mkState (EAttributeExpr (attrOfType (Some intType))) [])) =
  mkState (EAttributeExpr (SetValidation (attrOfType (Some intType)) (withMinimum emptyValidation float64_42))) [].
Proof.
  assert (H : typeIsNilOr (attrOfType (Some intType)) isNumericKind) by reflexivity.
  assert (H1 : numberValue (VInteger GInt 1) = Some (float64_of_Z 1)) by reflexivity.
  assert (H2 : numberValue (VFloat64 float64_42) = Some float64_42) by reflexivity.
  split; [exact H|]. split; [exact H1|]. split; [exact H2|].
  exact (proj1 (Minimum_Maximum_last_call_wins (attrOfType (Some intType)) []
                  (VInteger GInt 1) (VFloat64 float64_42) _ _ H H1 H2)).
Defined.

Lemma Pattern_last_call_wins_witness :
  typeIsNilOr (attrOfType (Some stringType)) (fun k => bool_decide (k = StringKind)) /\
  bracketCompile "[a-z]" = None /\ bracketCompile "^x$" = None /\
  Pattern bracketCompile "^x$" (Pattern bracketCompile "[a-z]"
    (mkState (EAttributeExpr (attrOfType (Some stringType))) [])) =
  mkState (EAttributeExpr (SetValidation (attrOfType (Some stringType)) (withPattern emptyValidation "^x$"))) [].
Proof.
  assert (H : typeIsNilOr (attrOfType (Some stringType)) (fun k => bool_decide (k = StringKind)))
    by (vm_compute; reflexivity).
  assert (H1 : bracketCompile "[a-z]" = None) by reflexivity.
  assert (H2 : bracketCompile "^x$" = None) by reflexivity.
  split; [exact H|]. split; [exact H1|]. split; [exact H2|].
  exact (Pattern_last_call_wins bracketCompile (attrOfType (Some stringType)) [] "[a-z]" "^x$" H H1 H2).
Defined.

Lemma Format_last_call_wins_witness :
  typeIsNilOr (attrOfType (Some stringType)) (fun k => bool_decide (k = StringKind)) /\
  IsSupportedFormat "date" = true /\
  Format IsSupportedFormat "not-a-format" (Format IsSupportedFormat "date"
    (mkState (EAttributeExpr (attrOfType (Some stringType))) [])) =
  mkState (EAttributeExpr (SetValidation (attrOfType (Some stringType))
    (withFormat emptyValidation "not-a-format"))) [ErrInvalidFormat "not-a-format"].
Proof.
  assert (H : typeIsNilOr (attrOfType (Some stringType)) (fun k => bool_decide (k = StringKind)))
    by (vm_compute; reflexivity).
  assert (H1 : IsSupportedFormat "date" = true) by (vm_compute; reflexivity).
  split; [exact H|]. split; [exact H1|].
  rewrite (Format_last_call_wins IsSupportedFormat (attrOfType (Some stringType)) [] "date" "not-a-format" H H1).
  vm_compute. reflexivity.
Defined.

Lemma Enum_last_call_wins_witness :
  (forall t, AttrType (attrOfType (Some intType)) = Some t -> forallb (integersOnly t) [VInteger GInt 1] = true) /\
  (forall t, AttrType (attrOfType (Some intType)) = Some t -> forallb (integersOnly t) [VInteger GInt 2] = true) /\
  Enum integersOnly (fun m => m) (fun l => l) [VInteger GInt 2]
    (Enum integersOnly (fun m => m) (fun l => l) [VInteger GInt 1]
      (mkState (EAttributeExpr (attrOfType (Some intType))) [])) =
  mkState (EAttributeExpr (SetValidation (attrOfType (Some intType))
    (withValues emptyValidation [VInteger GInt 2]))) [].
Proof.
  assert (H1 : forall t, AttrType (attrOfType (Some intType)) = Some t ->
                 forallb (integersOnly t) [VInteger GInt 1] = true) by reflexivity.
  assert (H2 : forall t, AttrType (attrOfType (Some intType)) = Some t ->
                 forallb (integersOnly t) [VInteger GInt 2] = true) by reflexivity.
  split; [exact H1|]. split; [exact H2|].
  rewrite (Enum_last_call_wins integersOnly (fun m => m) (fun l => l) (attrOfType (Some intType)) []
             [VInteger GInt 1] [VInteger GInt 2] H1 H2).
  reflexivity.
Defined.


Lemma ParseFloat_decimal_digits_witness :
  "42"%string <> EmptyString /\ allDigits "42" = true /\ ParseFloat "42" = Some float64_42.
Proof.
  assert (H1 : "42"%string <> EmptyString) by discriminate.
  assert (H2 : allDigits "42" = true) by reflexivity.
  split; [exact H1|]. split; [exact H2|].
  rewrite (ParseFloat_decimal_digits "42" H1 H2). vm_compute. reflexivity.
Defined.

Lemma Minimum_Maximum_digit_string_as_integer_witness :
  "42"%string <> EmptyString /\ allDigits "42" = true /\
  isInfinite (float64_of_Z (decimalValue "42" 0)) = false /\ GUint64 <> GUint /\ GUint64 <> GUintptr /\
  Minimum (VString "42") (mkState (EAttributeExpr (attrOfType (Some intType))) []) =
  Minimum (VInteger GUint64 42) (mkState (EAttributeExpr (attrOfType (Some intType))) []).
Proof.
  assert (H1 : "42"%string <> EmptyString) by discriminate.
  assert (H2 : allDigits "42" = true) by reflexivity.
  assert (H3 : isInfinite (float64_of_Z (decimalValue "42" 0)) = false) by (vm_compute; reflexivity).
  assert (H4 : GUint64 <> GUint) by discriminate.
  assert (H5 : GUint64 <> GUintptr) by discriminate.
  split; [exact H1|]. split; [exact H2|]. split; [exact H3|]. split; [exact H4|]. split; [exact H5|].
  exact (proj1 (Minimum_Maximum_digit_string_as_integer "42" GUint64
                  (mkState (EAttributeExpr (attrOfType (Some intType))) []) H1 H2 H3 H4 H5)).
Defined.
